(** * vaopy.registry.vao: query building and result decoding

    A shallow embedding of [src/python/vaopy/registry/vao.py]: the
    [RegistryService], [RegistryQuery] and [RegistryResults] classes, with
    Python objects as records, mutation as explicit state passing and
    exceptions as an [outcome] that keeps the state reached when the
    exception left the method. *)

From Stdlib Require Import String Ascii List Bool Arith NArith ZArith Lia Permutation.
Import ListNotations.
Local Open Scope list_scope.
Local Open Scope string_scope.

(** ** Python values, exceptions and the method monad *)

(** The dynamically typed values that reach this module's arguments. *)
Inductive pyval : Type :=
| PyNone
| PyBool (b : bool)
| PyStr (s : string).

(** Python truth value: [None], [False] and the empty string are false. *)
Definition truthy (v : pyval) : bool :=
  match v with
  | PyNone => false
  | PyBool b => b
  | PyStr s => negb (s =? "")
  end.

(** [str(type(v))] in Python 2. *)
Definition str_type (v : pyval) : string :=
  match v with
  | PyNone => "<type 'NoneType'>"
  | PyBool _ => "<type 'bool'>"
  | PyStr _ => "<type 'str'>"
  end.

(** The exceptions this module can raise. *)
Inductive exn : Type :=
| ValueError (msg : string)
| NameError (name : string)
| AttributeError (name : string)
| TypeError (msg : string)
| IndexError
| KeyError (key : string).

(** The spec's InvalidArgument and NotFound kinds are both Python's
    [ValueError]: raised by the setters and by [list.remove]. *)
Definition is_ValueError (e : exn) : bool :=
  match e with ValueError _ => true | _ => false end.

Inductive outcome (A : Type) : Type :=
| Return (a : A)
| Raise (e : exn).
Arguments Return {A} a.
Arguments Raise {A} e.

Definition obind {A B} (o : outcome A) (k : A -> outcome B) : outcome B :=
  match o with
  | Return a => k a
  | Raise e => Raise e
  end.

(** ** String primitives of Python used by the module *)

Definition is_lower (c : ascii) : bool :=
  ((97 <=? N_of_ascii c) && (N_of_ascii c <=? 122))%N.

Definition is_upper (c : ascii) : bool :=
  ((65 <=? N_of_ascii c) && (N_of_ascii c <=? 90))%N.

(** [c.upper()] and [c.lower()] on a one-character byte string. *)
Definition upper (c : ascii) : ascii :=
  if is_lower c then ascii_of_N (N_of_ascii c - 32) else c.

Definition lower (c : ascii) : ascii :=
  if is_upper c then ascii_of_N (N_of_ascii c + 32) else c.

(** [s.endswith(suf)] *)
Definition endswith (s suf : string) : bool :=
  Nat.leb (String.length suf) (String.length s) &&
  (substring (String.length s - String.length suf) (String.length suf) s =? suf).

(** [sep.join(l)] is [String.concat sep l]. *)
Definition join (sep : string) (l : list string) : string := String.concat sep l.

(** [s.split(sep)] for a one-character separator: every occurrence splits,
    empty fields are kept, and the empty string gives one empty field. *)
Fixpoint split (sep : ascii) (s : string) : list string :=
  match s with
  | EmptyString => [EmptyString]
  | String c s' =>
      if Ascii.eqb c sep then EmptyString :: split sep s'
      else match split sep s' with
           | [] => [String c EmptyString]
           | h :: t => String c h :: t
           end
  end.

(** [s[-1]]: the last character, [None] where Python raises [IndexError]. *)
Fixpoint last_char (s : string) : option ascii :=
  match s with
  | EmptyString => None
  | String c EmptyString => Some c
  | String _ s' => last_char s'
  end.

(** [s[:-1]] *)
Fixpoint drop_last (s : string) : string :=
  match s with
  | EmptyString => EmptyString
  | String _ EmptyString => EmptyString
  | String c s' => String c (drop_last s')
  end.

(** [x in l] for a list of strings. *)
Definition mem (x : string) (l : list string) : bool :=
  existsb (String.eqb x) l.

(** Dictionary lookup in a literal [dict] written as an association list. *)
Fixpoint lookup {V : Type} (k : string) (d : list (string * V)) : option V :=
  match d with
  | [] => None
  | (k', v) :: d' => if k =? k' then Some v else lookup k d'
  end.

Definition keys {V : Type} (d : list (string * V)) : list string := map fst d.

(** ** urllib.quote_plus (Python 2 standard library) *)

Definition always_safe (c : ascii) : bool :=
  is_upper c || is_lower c
  || ((48 <=? N_of_ascii c) && (N_of_ascii c <=? 57))%N
  || Ascii.eqb c "_" || Ascii.eqb c "." || Ascii.eqb c "-".

Definition hex_digit (n : N) : ascii :=
  if (n <? 10)%N then ascii_of_N (48 + n) else ascii_of_N (55 + n).

(** ['%%%02X' % ord(c)] *)
Definition percent_encode (c : ascii) : string :=
  String "%" (String (hex_digit (N_of_ascii c / 16))
                     (String (hex_digit (N_of_ascii c mod 16)) EmptyString)).

(** [quote_plus(s)]: a blank becomes [+], the always-safe characters stay,
    every other byte becomes [%XX]. *)
Fixpoint quote_plus (s : string) : string :=
  match s with
  | EmptyString => EmptyString
  | String c s' =>
      (if Ascii.eqb c " " then "+"
       else if always_safe c then String c EmptyString
       else percent_encode c) ++ quote_plus s'
  end.

(** ** class RegistryQuery: state *)

(** The object state set up by [RegistryQuery.__init__]; [_baseurl] and
    [_param] are the attributes of the [dalq.DalQuery] base class that this
    module reads and writes.  [_param] is a [dict] kept as an association
    list with distinct keys, in insertion order. *)
Record RegistryQuery : Type := mkRegistryQuery {
  _baseurl : string;
  _param : list (string * string);
  _kw : list string;
  _preds : list string;
  _svctype : option string;
  _orKw : pyval;
  _doSort : bool;
  _dalonly : bool
}.

(** A method of the query: it returns or raises, and leaves a state. *)
Definition method (A : Type) : Type := RegistryQuery -> outcome A * RegistryQuery.

Definition ret {A} (a : A) : method A := fun q => (Return a, q).
Definition raise {A} (e : exn) : method A := fun q => (Raise e, q).
Definition bind {A B} (m : method A) (k : A -> method B) : method B :=
  fun q => match m q with
           | (Return a, q') => k a q'
           | (Raise e, q') => (Raise e, q')
           end.

Notation "m ;;; k" := (bind m (fun _ => k))
  (at level 61, right associativity).

Definition set_param (p : list (string * string)) (q : RegistryQuery) :=
  mkRegistryQuery (_baseurl q) p (_kw q) (_preds q) (_svctype q) (_orKw q)
                  (_doSort q) (_dalonly q).
Definition set_kw (l : list string) (q : RegistryQuery) :=
  mkRegistryQuery (_baseurl q) (_param q) l (_preds q) (_svctype q) (_orKw q)
                  (_doSort q) (_dalonly q).
Definition set_preds (l : list string) (q : RegistryQuery) :=
  mkRegistryQuery (_baseurl q) (_param q) (_kw q) l (_svctype q) (_orKw q)
                  (_doSort q) (_dalonly q).
Definition set_svctype (t : option string) (q : RegistryQuery) :=
  mkRegistryQuery (_baseurl q) (_param q) (_kw q) (_preds q) t (_orKw q)
                  (_doSort q) (_dalonly q).
Definition set_orKw (v : pyval) (q : RegistryQuery) :=
  mkRegistryQuery (_baseurl q) (_param q) (_kw q) (_preds q) (_svctype q) v
                  (_doSort q) (_dalonly q).

(** ** Class constants *)

Definition STSCI_REGISTRY_BASEURL : string :=
  "http://vao.stsci.edu/directory/NVORegInt.asmx/".

Definition SERVICE_NAME : string := "VOTCapBandPredOpt".
Definition RESULTSET_TYPE_ARG : string := "VOTStyleOption=2".

Definition ALLOWED_WAVEBANDS : list string :=
  (["Radio"; "Millimeter"; "Infrared"; "Optical"; "UV"] ++
   ["EUV"; "X-ray"; "Gamma-ray"])%list.

Definition WAVEBAND_SYN : list (string * string) :=
  [ ("ir", "Infrared");
    ("IR", "Infrared");
    ("uv", "UV");
    ("euv", "EUV") ].

Definition ALLOWED_CAPS : list (string * string) :=
  [ ("table", "ConeSearch");
    ("catalog", "ConeSearch");
    ("scs", "ConeSearch");
    ("conesearch", "ConeSearch");
    ("image", "SimpleImageAccess");
    ("sia", "SimpleImageAccess");
    ("spectra", "SimpleSpectralAccess");
    ("spectrum", "SimpleSpectralAccess");
    ("ssa", "SimpleSpectralAccess");
    ("ssap", "SimpleSpectralAccess");
    ("line", "SimpleLineAccess");
    ("sla", "SimpleLineAccess");
    ("slap", "SimpleLineAccess");
    ("tap", "TableAccess");
    ("database", "TableAccess");
    ("tableAccess", "TableAccess");
    ("simpleImageAccess", "SimpleImageAccess");
    ("simpleLineAccess", "SimpleLineAccess");
    ("simpleSpectralAccess", "SimpleSpectralAccess") ].

(** The five capability names that [ALLOWED_CAPS] maps to. *)
Definition CAPABILITY_NAMES : list string :=
  ["ConeSearch"; "SimpleImageAccess"; "SimpleSpectralAccess";
   "SimpleLineAccess"; "TableAccess"].

(** ** The dalq.DalQuery base class *)

(** Modelled from the spec: [dalq.DalQuery.__init__], which is not part of
    this module; the base abstraction keeps the base URL and an initially
    empty string-keyed parameter map. *)
Definition DalQuery_init (baseurl : string) : string * list (string * string) :=
  (baseurl, []).

(** Modelled from the spec: [dalq.DalQuery.setparam], the generic parameter
    storage of the base class; assignment to a [dict] entry. *)
Fixpoint dict_set (k v : string) (d : list (string * string)) : list (string * string) :=
  match d with
  | [] => [(k, v)]
  | (k', v') :: d' => if k =? k' then (k, v) :: d' else (k', v') :: dict_set k v d'
  end.

Definition setparam (name val : string) : method unit :=
  fun q => (Return tt, set_param (dict_set name val (_param q)) q).

(** Modelled from the spec: [dalq.DalQuery.unsetparam]; the entry is
    dropped when present. *)
Definition dict_del (k : string) (d : list (string * string)) : list (string * string) :=
  filter (fun kv => negb (k =? fst kv)) d.

Definition unsetparam (name : string) : method unit :=
  fun q => (Return tt, set_param (dict_del name (_param q)) q).

(** Modelled from the spec: [dalq.DalQuery.getparam], [None] when unset. *)
Definition getparam (name : string) (q : RegistryQuery) : option string :=
  lookup name (_param q).

(** Modelled from the spec: [dalq.DalQuery.paramnames]. *)
Definition paramnames (q : RegistryQuery) : list string := keys (_param q).

(** ** class RegistryQuery: methods *)

(** [if not baseurl: baseurl = default] for an optional string argument:
    [None] and the empty string are both false. *)
Definition or_default (baseurl : option string) (default : string) : string :=
  match baseurl with
  | None => default
  | Some s => if s =? "" then default else s
  end.

(** [RegistryQuery.__init__(self, orKeywords=True, baseurl=None)] *)
Definition RegistryQuery_init (orKeywords : pyval) (baseurl : option string)
  : RegistryQuery :=
  let baseurl := or_default baseurl STSCI_REGISTRY_BASEURL in
  let '(b, p) := DalQuery_init baseurl in
  mkRegistryQuery b p [] [] None orKeywords true false.

(** The [keywords] property: a copy of the list. *)
Definition keywords (q : RegistryQuery) : list string := _kw q.

(** The [keywords] argument of [addkeywords] and [removekeywords]: one
    phrase as a [str], or a list of phrases. *)
Inductive kwarg : Type :=
| KwStr (s : string)
| KwList (l : list string).

(** [if isinstance(keywords, str): keywords = [keywords]] *)
Definition kwarg_list (k : kwarg) : list string :=
  match k with
  | KwStr s => [s]
  | KwList l => l
  end.

Definition addkeywords (k : kwarg) : method unit :=
  fun q => (Return tt, set_kw (_kw q ++ kwarg_list k)%list q).

(** [l.remove(x)]: the first occurrence goes; [None] where Python raises
    [ValueError]. *)
Fixpoint list_remove (x : string) (l : list string) : option (list string) :=
  match l with
  | [] => None
  | y :: l' =>
      if y =? x then Some l'
      else match list_remove x l' with
           | Some r => Some (y :: r)
           | None => None
           end
  end.

Definition remove_error : exn := ValueError "list.remove(x): x not in list".

(** [for kw in keywords: self._kw.remove(kw)] *)
Fixpoint remove_each (ks : list string) : method unit :=
  fun q =>
    match ks with
    | [] => (Return tt, q)
    | kw :: ks' =>
        match list_remove kw (_kw q) with
        | Some l => remove_each ks' (set_kw l q)
        | None => (Raise remove_error, q)
        end
    end.

Definition removekeywords (k : kwarg) : method unit :=
  remove_each (kwarg_list k).

Definition clearkeywords : method unit :=
  fun q => (Return tt, set_kw [] q).

Definition or_keywords (ored : pyval) : method unit :=
  fun q => (Return tt, set_orKw ored q).

Definition will_or_keywords (q : RegistryQuery) : pyval := _orKw q.

(** The [servicetype] property. *)
Definition servicetype (q : RegistryQuery) : option string := _svctype q.

(** [if val[0].upper() == val[0]: val = val[0].lower() + val[1:]] *)
Definition uncapitalize (val : string) : string :=
  match val with
  | EmptyString => EmptyString
  | String c rest => if Ascii.eqb (upper c) c then String (lower c) rest else val
  end.

(** The [servicetype] setter.  In the branch for a value shorter than two
    characters the message is built from the name [serviceType], which is
    bound nowhere (the argument is [val]), so evaluating the operand of
    [raise] stops with a [NameError] before the [ValueError] is made. *)
Definition servicetype_set (val : string) : method unit :=
  if negb (truthy (PyStr val)) then
    raise (ValueError "missing serviceType value")
  else if Nat.ltb (String.length val) 2 then
    raise (NameError "serviceType")
  else
    let val := uncapitalize val in
    if negb (mem val (keys ALLOWED_CAPS)) then
      raise (ValueError ("unrecognized servicetype value: " ++ val))
    else
      fun q => (Return tt, set_svctype (Some val) q).

Definition servicetype_del : method unit :=
  fun q => (Return tt, set_svctype None q).

(** The [waveband] property. *)
Definition waveband (q : RegistryQuery) : option string := getparam "waveband" q.

(** [_band[0].upper() + _band[1:]] *)
Definition capitalize (s : string) : string :=
  match s with
  | EmptyString => EmptyString
  | String c rest => String (upper c) rest
  end.

(** The [waveband] setter. *)
Definition waveband_set (band : pyval) : method unit :=
  match band with
  | PyNone => unsetparam "waveband"
  | PyStr s =>
      if negb (truthy band) then
        raise (ValueError "missing waveband value")
      else if Nat.ltb (String.length s) 2 then
        raise (ValueError ("unrecognized waveband: " ++ s))
      else
        let _band :=
          match lookup s WAVEBAND_SYN with
          | Some syn => syn
          | None => s
          end in
        let _band := capitalize _band in
        if negb (mem _band ALLOWED_WAVEBANDS) then
          raise (ValueError ("unrecognized waveband: " ++ s))
        else setparam "waveband" _band
  | _ =>
      raise (ValueError ("band should be a string; got: " ++ str_type band))
  end.

Definition waveband_del : method unit := unsetparam "waveband".

(** The [predicates] property: a copy of the list. *)
Definition predicates (q : RegistryQuery) : list string := _preds q.

Definition addpredicate (pred : string) : method unit :=
  fun q => (Return tt, set_preds (_preds q ++ [pred])%list q).

Definition removepredicate (pred : string) : method unit :=
  fun q =>
    match list_remove pred (_preds q) with
    | Some l => (Return tt, set_preds l q)
    | None => (Raise remove_error, q)
    end.

Definition clearpredicates : method unit :=
  fun q => (Return tt, set_preds [] q).

Definition _toCapConst (stype : string) : outcome string :=
  match lookup stype ALLOWED_CAPS with
  | Some c => Return c
  | None => Raise (KeyError stype)
  end.

Definition textcols : list string :=
  ["Title"; "ShortName"; "Identifier";
   "[content/subject]"; "[curation/publisher]";
   "[content/description]"; "[@xsi_type]";
   "[capability/@xsi_type]"].

(** ["%s LIKE '%%%s%%'" % (col, kw)] *)
Definition like (kw col : string) : string :=
  col ++ " LIKE '%" ++ kw ++ "%'".

(** The constraint of one keyword: [" OR ".join(keyconst)]. *)
Definition keyconst (kw : string) : string :=
  join " OR " (map (like kw) textcols).

(** [conjunction = (ored and ") OR (") or ") AND ("] *)
Definition conjunction (ored : pyval) : string :=
  if truthy ored then ") OR (" else ") AND (".

Definition keywords_to_predicate (keywords : list string) (ored : pyval) : string :=
  "(" ++ join (conjunction ored) (map keyconst keywords) ++ ")".

(** ** class RegistryResults *)

(** The parsed response: rows in order, each row a [dict] from column name
    to cell. *)
Definition votable : Type := list (list (string * string)).

Record RegistryResults : Type := mkRegistryResults {
  _tbl : votable;
  _url : string
}.

(** What [getvalue] returns: the raw cell, or a tuple of strings. *)
Inductive value : Type :=
| VStr (s : string)
| VTuple (l : list string).

Definition _strarraycols : list string :=
  ["waveband"; "subject"; "type"; "contentLevel"].

(** Modelled from the spec: [dalq.DalResults.getvalue], the generic accessor
    of the base class, which is not part of this module; [IndexError] for a
    negative index or one past the last row, [KeyError] for a column the
    table does not have. *)
Definition DalResults_getvalue (self : RegistryResults) (name : string) (index : Z)
  : outcome string :=
  if (index <? 0)%Z then Raise IndexError
  else match nth_error (_tbl self) (Z.to_nat index) with
       | None => Raise IndexError
       | Some row =>
           match lookup name row with
           | Some cell => Return cell
           | None => Raise (KeyError name)
           end
       end.

(** [if out[0] == '#': out = out[1:]]; [None] where [out[0]] raises. *)
Definition strip_first (out : string) : option string :=
  match out with
  | EmptyString => None
  | String c rest => Some (if Ascii.eqb c "#" then rest else out)
  end.

(** [if out[-1] == '#': out = out[:-1]]; [None] where [out[-1]] raises. *)
Definition strip_last (out : string) : option string :=
  match last_char out with
  | None => None
  | Some c => Some (if Ascii.eqb c "#" then drop_last out else out)
  end.

Definition getvalue (self : RegistryResults) (name : string) (index : Z)
  : outcome value :=
  obind (DalResults_getvalue self name index) (fun out =>
    if negb (mem name _strarraycols) then Return (VStr out)
    else match strip_first out with
         | None => Raise IndexError
         | Some out =>
             match strip_last out with
             | None => Raise IndexError
             | Some out => Return (VTuple (split "#" out))
             end
         end).

(** A record: the result set and the row it shows. *)
Record SimpleResource : Type := mkSimpleResource {
  _results : RegistryResults;
  _index : Z
}.

(** Modelled from the spec: [dalq.Record.__init__], which is not part of
    this module; a record is bound to (result set, index) and an index
    outside the rows is an [IndexError]. *)
Definition Record_init (results : RegistryResults) (index : Z)
  : outcome SimpleResource :=
  if (index <? 0)%Z then Raise IndexError
  else match nth_error (_tbl results) (Z.to_nat index) with
       | None => Raise IndexError
       | Some _ => Return (mkSimpleResource results index)
       end.

Definition getrecord (self : RegistryResults) (index : Z) : outcome SimpleResource :=
  Record_init self index.

(** ** Attribute lookup *)

(** The names that the body of [class RegistryQuery] and its [__init__]
    bind. *)
Definition RegistryQuery_dir : list string :=
  ["SERVICE_NAME"; "RESULTSET_TYPE_ARG"; "ALLOWED_WAVEBANDS"; "WAVEBAND_SYN";
   "ALLOWED_CAPS"; "__init__"; "keywords"; "addkeywords"; "removekeywords";
   "clearkeywords"; "or_keywords"; "will_or_keywords"; "servicetype";
   "waveband"; "predicates"; "addpredicate"; "removepredicate";
   "clearpredicates"; "execute"; "getQueryURL"; "_toCapConst";
   "keywords_to_predicate"; "_kw"; "_preds"; "_svctype"; "_orKw"; "_doSort";
   "_dalonly"].

(** Modelled from the spec: the names a query inherits from [dalq.DalQuery],
    the base abstraction that supplies the parameter storage and the
    fetch; these are the ones this module uses. *)
Definition DalQuery_dir : list string :=
  ["_baseurl"; "_param"; "paramnames"; "setparam"; "unsetparam"; "getparam";
   "_paramtostr"; "executeVotable"].

(** [getattr(srch, name)] where the attribute is then called with one string
    and its result dropped.  A name bound neither by the class nor by its
    base is an [AttributeError]; of the bound names, the procedures of one
    string are returned, and the others (properties, constants, methods of
    another shape) are not called this way by the module and are reported as
    a [TypeError]. *)
Definition RegistryQuery_getattr (name : string) : outcome (string -> method unit) :=
  if negb (mem name (RegistryQuery_dir ++ DalQuery_dir)%list) then
    Raise (AttributeError name)
  else if name =? "addpredicate" then Return addpredicate
  else if name =? "removepredicate" then Return removepredicate
  else if name =? "addkeywords" then Return (fun s => addkeywords (KwStr s))
  else if name =? "removekeywords" then Return (fun s => removekeywords (KwStr s))
  else if name =? "or_keywords" then Return (fun s => or_keywords (PyStr s))
  else if name =? "unsetparam" then Return unsetparam
  else Raise (TypeError name).

(** The names that the body of [class RegistryResults] binds. *)
Definition RegistryResults_dir : list string :=
  ["_strarraycols"; "__init__"; "getrecord"; "getvalue"].

(** [getattr(res, name)] where the attribute is then called with one index
    and yields a record. *)
Definition RegistryResults_getattr (name : string)
  : outcome (RegistryResults -> Z -> outcome SimpleResource) :=
  if negb (mem name RegistryResults_dir) then Raise (AttributeError name)
  else if name =? "getrecord" then Return getrecord
  else Raise (TypeError name).

(** ** Rendering, execution and the service *)

Record RegistryService : Type := mkRegistryService {
  service_baseurl : string   (* [self._baseurl], set by [dalq.DalService.__init__] *)
}.

(** [RegistryService.__init__(self, baseurl=None, resmeta=None)] *)
Definition RegistryService_init (baseurl : option string) : RegistryService :=
  let baseurl := or_default baseurl STSCI_REGISTRY_BASEURL in
  let baseurl := if negb (endswith baseurl "/") then baseurl ++ "/" else baseurl in
  mkRegistryService baseurl.

(** [if x:] for an optional string argument. *)
Definition given (o : option string) : bool :=
  match o with
  | None => false
  | Some s => negb (s =? "")
  end.

(** [if keywords:] for an optional [keywords] argument. *)
Definition given_kw (o : option kwarg) : bool :=
  match o with
  | None => false
  | Some (KwStr s) => negb (s =? "")
  | Some (KwList l) => negb (Nat.eqb (List.length l) 0)
  end.

(** [(p)] for each term: ["(%s)" % p] *)
Definition paren (p : string) : string := "(" ++ p ++ ")".

(** The local list [preds] of [getQueryURL]: the explicit predicates, then
    the keyword predicate when there are keywords. *)
Definition url_preds (q : RegistryQuery) : list string :=
  let preds := _preds q in
  if negb (Nat.eqb (List.length (keywords q)) 0) then
    (preds ++ [keywords_to_predicate (keywords q) (_orKw q)])%list
  else preds.

(** The expression that [getQueryURL] URL-encodes. *)
Definition predicate_expr (preds : list string) : string :=
  join " AND " (map paren preds).

Section DalBase.

(** The two methods of [dalq.DalQuery] that this module calls and that are
    not part of it: the parameter encoder and the fetch of the table. *)
Variable _paramtostr : string -> string.
Variable executeVotable : RegistryQuery -> outcome votable.

Definition getQueryURL (q : RegistryQuery) : outcome string :=
  let url := _baseurl q ++ SERVICE_NAME ++ "?" ++ RESULTSET_TYPE_ARG in
  let url :=
    if Nat.ltb 0 (List.length (paramnames q)) then
      url ++ "&" ++
      join "&" (map (fun pv => fst pv ++ "=" ++ _paramtostr (snd pv)) (_param q))
    else url in
  obind
    (if given (servicetype q) then
       match servicetype q with
       | Some stype =>
           obind (_toCapConst stype) (fun c => Return (url ++ "&capability=" ++ c))
       | None => Return (url ++ "&capability=")
       end
     else Return (url ++ "&capability="))
    (fun url =>
       let preds := url_preds q in
       if negb (Nat.eqb (List.length preds) 0) then
         Return (url ++ "&predicate=" ++ quote_plus (predicate_expr preds))
       else
         Return (url ++ "&predicate=1")).

Definition execute (q : RegistryQuery) : outcome RegistryResults :=
  obind (executeVotable q) (fun v =>
  obind (getQueryURL q) (fun u =>
  Return (mkRegistryResults v u))).

(** [RegistryService.createQuery].  The one positional argument of
    [RegistryQuery(self._baseurl)] binds to [orKeywords], the first
    parameter of [RegistryQuery.__init__]; [baseurl] keeps its default. *)
Definition createQuery (self : RegistryService) (keywords : option kwarg)
           (servicetype : option string) (waveband : pyval)
           (sqlpred : option string) : outcome RegistryQuery :=
  let srch := RegistryQuery_init (PyStr (service_baseurl self)) None in
  let body : method unit :=
    (match sqlpred with
     | Some p => if given sqlpred then addpredicate p else ret tt
     | None => ret tt
     end) ;;;
    (if truthy waveband then waveband_set waveband else ret tt) ;;;
    (match servicetype with
     | Some t => if given servicetype then servicetype_set t else ret tt
     | None => ret tt
     end) ;;;
    (match keywords with
     | Some k => if given_kw keywords then addkeywords k else ret tt
     | None => ret tt
     end) in
  match body srch with
  | (Return _, srch) => Return srch
  | (Raise e, _) => Raise e
  end.

Definition search (self : RegistryService) (keywords : option kwarg)
           (servicetype : option string) (waveband : pyval)
           (sqlpred : option string) : outcome RegistryResults :=
  obind (createQuery self keywords servicetype waveband sqlpred) execute.

(** [RegistryService.resolve]: the two calls are looked up under the
    names the source writes, [addPredicate] and [getRecord]. *)
Definition resolve (self : RegistryService) (ivoid : string)
  : outcome SimpleResource :=
  obind (createQuery self None None PyNone None) (fun srch =>
  obind (RegistryQuery_getattr "addPredicate") (fun addPredicate =>
  match addPredicate ("Identifier='" ++ ivoid ++ "'") srch with
  | (Raise e, _) => Raise e
  | (Return _, srch) =>
      obind (execute srch) (fun res =>
      obind (RegistryResults_getattr "getRecord") (fun getRecord =>
      getRecord res 0%Z))
  end)).

Definition regsearch (keywords : option kwarg) (servicetype : option string)
           (waveband : pyval) (sqlpred : option string)
  : outcome RegistryResults :=
  let reg := RegistryService_init None in
  search reg keywords servicetype waveband sqlpred.

End DalBase.

(** ** Operations on a query, and the vocabulary of its two tags *)

(** The mutators that [class RegistryQuery] defines. *)
Inductive op : Type :=
| AddKeywords (k : kwarg)
| RemoveKeywords (k : kwarg)
| ClearKeywords
| OrKeywords (ored : pyval)
| SetServicetype (val : string)
| DelServicetype
| SetWaveband (band : pyval)
| DelWaveband
| AddPredicate (pred : string)
| RemovePredicate (pred : string)
| ClearPredicates.

Definition run_op (o : op) : method unit :=
  match o with
  | AddKeywords k => addkeywords k
  | RemoveKeywords k => removekeywords k
  | ClearKeywords => clearkeywords
  | OrKeywords ored => or_keywords ored
  | SetServicetype val => servicetype_set val
  | DelServicetype => servicetype_del
  | SetWaveband band => waveband_set band
  | DelWaveband => waveband_del
  | AddPredicate pred => addpredicate pred
  | RemovePredicate pred => removepredicate pred
  | ClearPredicates => clearpredicates
  end.

(** The state after a run of operations, those that raise included. *)
Definition run_ops (os : list op) (q : RegistryQuery) : RegistryQuery :=
  fold_left (fun q o => snd (run_op o q)) os q.

(** Both tags, when set, are in their vocabulary: the waveband among
    [ALLOWED_WAVEBANDS], the service type among the keys of
    [ALLOWED_CAPS]. *)
Definition canonical (q : RegistryQuery) : bool :=
  match waveband q with
  | Some b => mem b ALLOWED_WAVEBANDS
  | None => true
  end
  &&
  match servicetype q with
  | Some t => mem t (keys ALLOWED_CAPS)
  | None => true
  end.

(** The value the [waveband] setter tests and stores for the input [s]. *)
Definition canon_band (s : string) : string :=
  capitalize (match lookup s WAVEBAND_SYN with
              | Some syn => syn
              | None => s
              end).

(** The inputs that the two setters accept. *)
Definition valid_waveband (s : string) : bool :=
  Nat.leb 2 (String.length s) && mem (canon_band s) ALLOWED_WAVEBANDS.

Definition valid_servicetype (val : string) : bool :=
  Nat.leb 2 (String.length val) && mem (uncapitalize val) (keys ALLOWED_CAPS).

(** ** The parts of a rendered URL *)

(** [s] has [sub] inside it. *)
Definition contains (s sub : string) : Prop :=
  exists pre post, s = pre ++ sub ++ post.

(** The URL up to and including the generic parameters. *)
Definition url_head (_paramtostr : string -> string) (q : RegistryQuery) : string :=
  let url := _baseurl q ++ SERVICE_NAME ++ "?" ++ RESULTSET_TYPE_ARG in
  if Nat.ltb 0 (List.length (paramnames q)) then
    url ++ "&" ++
    join "&" (map (fun pv => fst pv ++ "=" ++ _paramtostr (snd pv)) (_param q))
  else url.

(** The value of the [capability] parameter. *)
Definition url_capability (q : RegistryQuery) : outcome string :=
  match servicetype q with
  | Some stype => if given (servicetype q) then _toCapConst stype else Return ""
  | None => Return ""
  end.

(** The value of the [predicate] parameter. *)
Definition url_predicate (q : RegistryQuery) : string :=
  if negb (Nat.eqb (List.length (url_preds q)) 0)
  then quote_plus (predicate_expr (url_preds q))
  else "1".

(** ** Spellings and characters *)

(** The spellings that the [waveband] setter accepts: the allowed names,
    the same with a lower-case first letter, and the keys of the synonym
    table. *)
Definition accepted_wavebands : list string :=
  ["Radio"; "Millimeter"; "Infrared"; "Optical"; "UV"; "EUV"; "X-ray"; "Gamma-ray";
   "radio"; "millimeter"; "infrared"; "optical"; "uV"; "eUV"; "x-ray"; "gamma-ray";
   "ir"; "IR"; "uv"; "euv"].

(** The spellings that the [servicetype] setter accepts: the keys of the
    capability table, with the first letter in either case. *)
Definition accepted_servicetypes : list string :=
  (keys ALLOWED_CAPS ++ map capitalize (keys ALLOWED_CAPS))%list.

(** [all(p(c) for c in s)] *)
Fixpoint string_forallb (p : ascii -> bool) (s : string) : bool :=
  match s with
  | EmptyString => true
  | String c s' => p c && string_forallb p s'
  end.

(** The characters a URL-encoded value is made of: letters, digits,
    [_], [.], [-], the [+] that stands for a blank and the [%] of an
    escape. *)
Definition url_value_char (c : ascii) : bool :=
  always_safe c || Ascii.eqb c "+" || Ascii.eqb c "%".

(** [sep not in s] *)
Definition free_of (sep : ascii) (s : string) : bool :=
  string_forallb (fun c => negb (Ascii.eqb c sep)) s.

(** * Properties *)

(** ** Strings *)

Lemma app_assoc_str (a b c : string) : (a ++ b) ++ c = a ++ (b ++ c).
Proof.
  induction a as [|x a IH]; simpl; [reflexivity | now rewrite IH].
Qed.

Lemma app_nil_r_str (a : string) : a ++ "" = a.
Proof.
  induction a as [|x a IH]; simpl; [reflexivity | now rewrite IH].
Qed.

Lemma length_app_str (a b : string) :
  String.length (a ++ b) = String.length a + String.length b.
Proof.
  induction a as [|x a IH]; simpl; [reflexivity | now rewrite IH].
Qed.

Lemma prefix_refl (a : string) : prefix a a = true.
Proof.
  induction a as [|x a IH]; simpl; [reflexivity|].
  destruct (ascii_dec x x) as [_|n]; [exact IH | now elim n].
Qed.

Lemma prefix_app (a b : string) : prefix a (a ++ b) = true.
Proof.
  induction a as [|x a IH]; simpl.
  - now destruct b.
  - destruct (ascii_dec x x) as [_|n]; [exact IH | now elim n].
Qed.

Lemma prefix_app_trans (p a b : string) :
  prefix p a = true -> prefix p (a ++ b) = true.
Proof.
  revert a; induction p as [|x p IH]; intros a H.
  - now destruct (a ++ b).
  - destruct a as [|y a]; simpl in *; [discriminate|].
    destruct (ascii_dec x y); [now apply IH | discriminate].
Qed.

Lemma substring_all (b : string) : substring 0 (String.length b) b = b.
Proof.
  induction b as [|x b IH]; simpl; [reflexivity | now rewrite IH].
Qed.

Lemma substring_skip (a b : string) :
  substring (String.length a) (String.length b) (a ++ b) = b.
Proof.
  induction a as [|x a IH]; simpl; [apply substring_all | exact IH].
Qed.

(** [(a + b).endswith(b)] *)
Lemma endswith_app (a b : string) : endswith (a ++ b) b = true.
Proof.
  unfold endswith. rewrite length_app_str.
  replace (String.length a + String.length b - String.length b)
    with (String.length a) by lia.
  rewrite substring_skip, String.eqb_refl, andb_true_r.
  apply Nat.leb_le; lia.
Qed.

Lemma mem_In (x : string) (l : list string) : mem x l = true <-> In x l.
Proof.
  unfold mem. rewrite existsb_exists. split.
  - intros [y [Hy E]]. apply String.eqb_eq in E. now subst.
  - intros H. exists x. split; [exact H | apply String.eqb_refl].
Qed.

Lemma mem_false_In (x : string) (l : list string) : mem x l = false <-> ~ In x l.
Proof.
  rewrite <- mem_In. destruct (mem x l); split; intro H.
  - discriminate H.
  - now elim H.
  - intro H'. discriminate H'.
  - reflexivity.
Qed.

(** ** Keywords: adding and removing *)

Lemma set_kw_same (q : RegistryQuery) : set_kw (_kw q) q = q.
Proof. now destruct q. Qed.

Lemma set_kw_twice (l l' : list string) (q : RegistryQuery) :
  set_kw l (set_kw l' q) = set_kw l q.
Proof. reflexivity. Qed.

(** A phrase that is not in the list cannot be removed. *)
Lemma list_remove_absent (x : string) (l : list string) :
  mem x l = false -> list_remove x l = None.
Proof.
  induction l as [|y l IH]; simpl; [reflexivity|].
  rewrite String.eqb_sym.
  destruct (y =? x) eqn:E; simpl; [discriminate|].
  intros H. now rewrite (IH H).
Qed.

(** A phrase that is in the list can be removed, and the list gets one
    shorter. *)
Lemma list_remove_present (x : string) (l : list string) :
  mem x l = true ->
  exists r, list_remove x l = Some r /\ List.length l = S (List.length r).
Proof.
  induction l as [|y l IH]; simpl; [discriminate|].
  rewrite String.eqb_sym.
  destruct (y =? x) eqn:E; simpl.
  - intros _. now exists l.
  - intros H. destruct (IH H) as [r [Hr Hl]].
    exists (y :: r). rewrite Hr. split; [reflexivity | simpl; now rewrite Hl].
Qed.

(** The first occurrence is the one appended when there was none before. *)
Lemma list_remove_appended (x : string) (l tl : list string) :
  mem x l = false -> list_remove x (l ++ x :: tl) = Some (l ++ tl)%list.
Proof.
  induction l as [|y l IH]; simpl.
  - intros _. now rewrite String.eqb_refl.
  - rewrite String.eqb_sym.
    destruct (y =? x) eqn:E; simpl; [discriminate|].
    intros H. now rewrite (IH H).
Qed.

(** What is removed is a rearrangement away from what was there. *)
Lemma list_remove_perm (x : string) (l r : list string) :
  list_remove x l = Some r -> Permutation l (x :: r).
Proof.
  revert r; induction l as [|y l IH]; simpl; intros r H; [discriminate|].
  destruct (y =? x) eqn:E.
  - apply String.eqb_eq in E. injection H as <-. now subst.
  - destruct (list_remove x l) as [r'|]; [|discriminate].
    injection H as <-.
    eapply perm_trans; [apply perm_skip, IH; reflexivity | apply perm_swap].
Qed.

(** Adding phrases none of which was there and removing them again, in
    the same order, gives back the query. *)
Lemma remove_each_appended (ks : list string) :
  forall (l : list string) (q : RegistryQuery),
    forallb (fun k => negb (mem k l)) ks = true ->
    remove_each ks (set_kw (l ++ ks) q) = (Return tt, set_kw l q).
Proof.
  induction ks as [|k ks IH]; intros l q H; simpl in *.
  - now rewrite app_nil_r.
  - apply andb_true_iff in H as [Hk Hks].
    apply negb_true_iff in Hk.
    rewrite (list_remove_appended k l ks Hk), set_kw_twice.
    now apply IH.
Qed.

(** Adding a phrase and removing it keeps the same phrases, whatever was
    there. *)
Lemma add_remove_perm (kw : string) (q : RegistryQuery) :
  exists q', removekeywords (KwStr kw) (snd (addkeywords (KwStr kw) q)) = (Return tt, q')
             /\ Permutation (_kw q') (_kw q).
Proof.
  unfold removekeywords, addkeywords; simpl.
  destruct (list_remove_present kw (_kw q ++ [kw])) as [r [Hr _]].
  { apply mem_In, in_or_app; right; now left. }
  rewrite Hr. eexists; split; [reflexivity|]. simpl.
  apply list_remove_perm in Hr.
  apply Permutation_cons_inv with (a := kw).
  eapply perm_trans; [symmetry; exact Hr|].
  apply Permutation_sym, Permutation_cons_append.
Qed.

(** C9, as stated, fails: with the list [a, b], adding [a] gives [a, b, a]
    and removing [a] takes the first occurrence away, which leaves [b, a]
    and not [a, b]. *)
Lemma keywords_roundtrip_counterexample :
  let q := snd (addkeywords (KwList ["a"; "b"]) (RegistryQuery_init (PyBool true) None)) in
  keywords q = ["a"; "b"] /\
  keywords (snd (removekeywords (KwStr "a") (snd (addkeywords (KwStr "a") q))))
    = ["b"; "a"] /\
  keywords (snd (removekeywords (KwStr "a") (snd (addkeywords (KwStr "a") q))))
    <> keywords q.
Proof.
  cbv zeta. repeat split. intro H. discriminate H.
Qed.

(** C9 (amended): for every query and every phrase that is not yet in the
    keyword list, adding the phrase and then removing it gives back the
    query as it was, and removing it without having added it fails with
    the [ValueError] of [list.remove] and leaves the query as it was. *)
Theorem keywords_roundtrip (q : RegistryQuery) (kw : string) :
  mem kw (keywords q) = false ->
  removekeywords (KwStr kw) (snd (addkeywords (KwStr kw) q)) = (Return tt, q)
  /\ removekeywords (KwStr kw) q = (Raise remove_error, q)
  /\ is_ValueError remove_error = true.
Proof.
  intros H. unfold keywords in H. repeat split.
  - unfold removekeywords, addkeywords; simpl kwarg_list; cbv beta; simpl snd.
    rewrite (remove_each_appended [kw] (_kw q) q).
    + now rewrite set_kw_same.
    + simpl. now rewrite H.
  - unfold removekeywords; simpl. now rewrite (list_remove_absent kw _ H).
Qed.

Lemma keywords_roundtrip_witness :
  let q := snd (addkeywords (KwList ["a"; "b"]) (RegistryQuery_init (PyBool true) None)) in
  removekeywords (KwStr "c") (snd (addkeywords (KwStr "c") q)) = (Return tt, q)
  /\ removekeywords (KwStr "c") q = (Raise remove_error, q)
  /\ is_ValueError remove_error = true.
Proof.
  cbv zeta. apply keywords_roundtrip. reflexivity.
Defined.

(** ** The two setters *)

Lemma lookup_dict_set_same (k v : string) (d : list (string * string)) :
  lookup k (dict_set k v d) = Some v.
Proof.
  induction d as [|[k' v'] d IH]; simpl.
  - now rewrite String.eqb_refl.
  - destruct (k =? k') eqn:E; simpl.
    + now rewrite String.eqb_refl.
    + now rewrite E.
Qed.

Lemma lookup_dict_del_same (k : string) (d : list (string * string)) :
  lookup k (dict_del k d) = None.
Proof.
  induction d as [|[k' v'] d IH]; simpl; [reflexivity|].
  destruct (k =? k') eqn:E; simpl; [exact IH | now rewrite E].
Qed.

(** What the [servicetype] setter does, case by case. *)
Lemma servicetype_set_cases (val : string) (q : RegistryQuery) :
  (val = "" /\
   servicetype_set val q = (Raise (ValueError "missing serviceType value"), q))
  \/ (String.length val = 1 /\
      servicetype_set val q = (Raise (NameError "serviceType"), q))
  \/ (valid_servicetype val = false /\ 2 <= String.length val /\
      servicetype_set val q =
        (Raise (ValueError ("unrecognized servicetype value: " ++ uncapitalize val)), q))
  \/ (valid_servicetype val = true /\
      servicetype_set val q = (Return tt, set_svctype (Some (uncapitalize val)) q)).
Proof.
  unfold servicetype_set, valid_servicetype.
  destruct val as [|c [|d rest]].
  - left. now split.
  - right; left. now split.
  - right; right.
    change (truthy (PyStr (String c (String d rest)))) with true.
    change (Nat.ltb (String.length (String c (String d rest))) 2) with false.
    change (Nat.leb 2 (String.length (String c (String d rest)))) with true.
    cbv iota. rewrite andb_true_l.
    destruct (mem (uncapitalize (String c (String d rest))) (keys ALLOWED_CAPS)).
    + right. now split.
    + left. repeat split. simpl; lia.
Qed.

(** What the [waveband] setter does on a string, case by case. *)
Lemma waveband_set_cases (s : string) (q : RegistryQuery) :
  (valid_waveband s = false /\
   exists msg, waveband_set (PyStr s) q = (Raise (ValueError msg), q))
  \/ (valid_waveband s = true /\
      waveband_set (PyStr s) q =
        (Return tt, set_param (dict_set "waveband" (canon_band s) (_param q)) q)).
Proof.
  unfold waveband_set, valid_waveband, canon_band.
  destruct s as [|c [|d rest]].
  - left. split; [reflexivity|]. now eexists.
  - left. split; [reflexivity|]. now eexists.
  - change (truthy (PyStr (String c (String d rest)))) with true.
    change (Nat.ltb (String.length (String c (String d rest))) 2) with false.
    change (Nat.leb 2 (String.length (String c (String d rest)))) with true.
    cbv iota. rewrite andb_true_l.
    destruct (mem _ ALLOWED_WAVEBANDS).
    + right. now split.
    + left. split; [reflexivity|]. now eexists.
Qed.

(** An invalid waveband string is refused with a [ValueError] and the
    query is as before. *)
Lemma waveband_set_invalid (s : string) (q : RegistryQuery) :
  valid_waveband s = false ->
  exists msg, waveband_set (PyStr s) q = (Raise (ValueError msg), q).
Proof.
  intros H. destruct (waveband_set_cases s q) as [[_ E]|[V _]]; [exact E|].
  rewrite V in H; discriminate.
Qed.

(** A valid waveband string is stored in its canonical form, which is one
    of the allowed wavebands. *)
Lemma waveband_set_valid (s : string) (q : RegistryQuery) :
  valid_waveband s = true ->
  fst (waveband_set (PyStr s) q) = Return tt
  /\ waveband (snd (waveband_set (PyStr s) q)) = Some (canon_band s)
  /\ mem (canon_band s) ALLOWED_WAVEBANDS = true.
Proof.
  intros H. destruct (waveband_set_cases s q) as [[V _]|[_ E]].
  - rewrite V in H; discriminate.
  - rewrite E. split; [reflexivity|]. split.
    + unfold waveband, getparam. cbn [snd set_param _param].
      apply lookup_dict_set_same.
    + unfold valid_waveband in H. now apply andb_true_iff in H as [_ H].
Qed.

(** So is a value that is not a string (and not [None]). *)
Lemma waveband_set_not_str (b : bool) (q : RegistryQuery) :
  exists msg, waveband_set (PyBool b) q = (Raise (ValueError msg), q).
Proof. now eexists. Qed.

(** An invalid service type other than a single character is refused with
    a [ValueError] and the query is as before. *)
Lemma servicetype_set_invalid (val : string) (q : RegistryQuery) :
  valid_servicetype val = false -> String.length val <> 1 ->
  exists msg, servicetype_set val q = (Raise (ValueError msg), q).
Proof.
  intros H L.
  destruct (servicetype_set_cases val q) as [[_ E]|[[L1 _]|[[_ [_ E]]|[V _]]]].
  - eexists; exact E.
  - now elim L.
  - eexists; exact E.
  - rewrite V in H; discriminate.
Qed.

(** Whatever the setter answers, a refused service type leaves the query
    as before. *)
Lemma servicetype_set_raise_unchanged (val : string) (q q' : RegistryQuery) (e : exn) :
  servicetype_set val q = (Raise e, q') -> q' = q.
Proof.
  intros H.
  destruct (servicetype_set_cases val q) as [[_ E]|[[_ E]|[[_ [_ E]]|[_ E]]]];
    rewrite E in H; congruence.
Qed.

(** C3 at its failing input: a service type of one character is invalid,
    and the setter leaves the query as before, but what it raises is the
    [NameError] of the unbound name [serviceType], not a [ValueError]. *)
Theorem servicetype_set_one_char (c : ascii) (q : RegistryQuery) :
  valid_servicetype (String c "") = false
  /\ servicetype_set (String c "") q = (Raise (NameError "serviceType"), q)
  /\ is_ValueError (NameError "serviceType") = false.
Proof. repeat split. Qed.

(** ** The vocabulary invariant *)

(** The invariant reads the parameter map and the service type only. *)
Lemma canonical_ext (q q' : RegistryQuery) :
  _param q' = _param q -> _svctype q' = _svctype q -> canonical q' = canonical q.
Proof.
  intros Hp Hs. unfold canonical, waveband, getparam, servicetype.
  now rewrite Hp, Hs.
Qed.

Lemma remove_each_frame (ks : list string) :
  forall q, _param (snd (remove_each ks q)) = _param q
            /\ _svctype (snd (remove_each ks q)) = _svctype q.
Proof.
  induction ks as [|k ks IH]; intros q; simpl; [now split|].
  destruct (list_remove k (_kw q)) as [l|]; [|now split].
  destruct (IH (set_kw l q)) as [Hp Hs]. now rewrite Hp, Hs.
Qed.

Lemma canonical_init (orKeywords : pyval) (baseurl : option string) :
  canonical (RegistryQuery_init orKeywords baseurl) = true.
Proof. reflexivity. Qed.

Lemma canonical_set_waveband (b : string) (q : RegistryQuery) :
  mem b ALLOWED_WAVEBANDS = true -> canonical q = true ->
  canonical (set_param (dict_set "waveband" b (_param q)) q) = true.
Proof.
  intros Hb Hq. unfold canonical, waveband, getparam in *. simpl _param.
  rewrite lookup_dict_set_same, Hb.
  apply andb_true_iff in Hq as [_ Hs]. exact Hs.
Qed.

Lemma canonical_unset_waveband (q : RegistryQuery) :
  canonical q = true ->
  canonical (set_param (dict_del "waveband" (_param q)) q) = true.
Proof.
  intros Hq. unfold canonical, waveband, getparam in *. simpl _param.
  rewrite lookup_dict_del_same.
  apply andb_true_iff in Hq as [_ Hs]. exact Hs.
Qed.

Lemma canonical_set_servicetype (t : string) (q : RegistryQuery) :
  mem t (keys ALLOWED_CAPS) = true -> canonical q = true ->
  canonical (set_svctype (Some t) q) = true.
Proof.
  intros Ht Hq. unfold canonical, waveband, getparam, servicetype in *.
  simpl. apply andb_true_iff in Hq as [Hw _].
  apply andb_true_iff; split; [exact Hw | exact Ht].
Qed.

Lemma canonical_del_servicetype (q : RegistryQuery) :
  canonical q = true -> canonical (set_svctype None q) = true.
Proof.
  intros Hq. unfold canonical, waveband, getparam, servicetype in *.
  simpl. apply andb_true_iff in Hq as [Hw _].
  apply andb_true_iff; split; [exact Hw | reflexivity].
Qed.

(** Every mutator keeps the invariant, whether it returns or raises. *)
Lemma canonical_step (o : op) (q : RegistryQuery) :
  canonical q = true -> canonical (snd (run_op o q)) = true.
Proof.
  intros Hq. destruct o as [k|k| |ored|val| |band| |p|p| ]; simpl run_op.
  - rewrite <- Hq. now apply canonical_ext.
  - rewrite <- Hq. unfold removekeywords.
    destruct (remove_each_frame (kwarg_list k) q) as [Hp Hs].
    now apply canonical_ext.
  - rewrite <- Hq. now apply canonical_ext.
  - rewrite <- Hq. now apply canonical_ext.
  - destruct (servicetype_set_cases val q) as [[_ E]|[[_ E]|[[_ [_ E]]|[V E]]]];
      rewrite E; simpl snd; try exact Hq.
    apply canonical_set_servicetype; [|exact Hq].
    unfold valid_servicetype in V. now apply andb_true_iff in V as [_ V].
  - now apply canonical_del_servicetype.
  - destruct band as [|b|s].
    + now apply canonical_unset_waveband.
    + exact Hq.
    + destruct (waveband_set_cases s q) as [[_ [msg E]]|[V E]];
        rewrite E; simpl snd; [exact Hq|].
      apply canonical_set_waveband; [|exact Hq].
      unfold valid_waveband in V. now apply andb_true_iff in V as [_ V].
  - now apply canonical_unset_waveband.
  - rewrite <- Hq. now apply canonical_ext.
  - unfold removepredicate.
    destruct (list_remove p (_preds q)); simpl snd; [|exact Hq].
    rewrite <- Hq. now apply canonical_ext.
  - rewrite <- Hq. now apply canonical_ext.
Qed.

(** Hence every query reached from a fresh one is canonical. *)
Lemma canonical_reachable (os : list op) (orKeywords : pyval) (baseurl : option string) :
  canonical (run_ops os (RegistryQuery_init orKeywords baseurl)) = true.
Proof.
  unfold run_ops.
  generalize (canonical_init orKeywords baseurl).
  generalize (RegistryQuery_init orKeywords baseurl).
  induction os as [|o os IH]; intros q Hq; simpl; [exact Hq|].
  apply IH, canonical_step, Hq.
Qed.

(** A synonym is stored as the canonical name the table gives for it. *)
Lemma waveband_synonym_stored (k v : string) (q : RegistryQuery) :
  lookup k WAVEBAND_SYN = Some v ->
  mem v ALLOWED_WAVEBANDS = true
  /\ fst (waveband_set (PyStr k) q) = Return tt
  /\ waveband (snd (waveband_set (PyStr k) q)) = Some v.
Proof.
  unfold WAVEBAND_SYN, lookup.
  destruct (k =? "ir") eqn:E1;
    [|destruct (k =? "IR") eqn:E2;
      [|destruct (k =? "uv") eqn:E3;
        [|destruct (k =? "euv") eqn:E4; [|discriminate]]]];
    intros H; injection H as <-;
    match goal with E : (k =? _) = true |- _ => apply String.eqb_eq in E; subst k end;
    (split; [reflexivity|]); (split; [reflexivity|]);
    unfold waveband, getparam; simpl; apply lookup_dict_set_same.
Qed.

(** A key of a literal [dict] has a value. *)
Lemma lookup_key {V : Type} (k : string) (d : list (string * V)) :
  mem k (keys d) = true -> exists v, lookup k d = Some v /\ In v (map snd d).
Proof.
  induction d as [|[k' v'] d IH]; simpl; [discriminate|].
  destruct (k =? k') eqn:E; simpl.
  - intros _. exists v'. split; [reflexivity | now left].
  - intros H. destruct (IH H) as [v [Hv Hin]]. exists v. split; [exact Hv | now right].
Qed.

(** The capability table only names the five capabilities. *)
Lemma ALLOWED_CAPS_values (v : string) :
  In v (map snd ALLOWED_CAPS) -> In v CAPABILITY_NAMES.
Proof.
  intros H. apply mem_In.
  assert (A : forallb (fun x => mem x CAPABILITY_NAMES) (map snd ALLOWED_CAPS) = true)
    by reflexivity.
  rewrite forallb_forall in A. now apply A.
Qed.

(** A service type that is set names one of the five capabilities, so
    rendering it cannot fail. *)
Lemma canonical_servicetype_capability (q : RegistryQuery) (t : string) :
  canonical q = true -> servicetype q = Some t ->
  exists cap, _toCapConst t = Return cap /\ In cap CAPABILITY_NAMES.
Proof.
  unfold canonical. intros Hq Ht. rewrite Ht in Hq.
  apply andb_true_iff in Hq as [_ Hk].
  destruct (lookup_key _ _ Hk) as [cap [Hc Hin]].
  exists cap. unfold _toCapConst. rewrite Hc.
  split; [reflexivity | now apply ALLOWED_CAPS_values].
Qed.

(** C4: the vocabulary invariant.  A fresh query satisfies it; every
    operation on a query keeps it, so that a waveband that is set is one of
    Radio, Millimeter, Infrared, Optical, UV, EUV, X-ray, Gamma-ray and a
    service type that is set is a key of the capability table; and a
    waveband given by a synonym of the table is stored as the canonical
    name ("ir" as "Infrared"). *)
Theorem tags_canonical :
  (forall orKeywords baseurl, canonical (RegistryQuery_init orKeywords baseurl) = true)
  /\ (forall o q, canonical q = true -> canonical (snd (run_op o q)) = true)
  /\ (forall k v q, lookup k WAVEBAND_SYN = Some v ->
        mem v ALLOWED_WAVEBANDS = true
        /\ fst (waveband_set (PyStr k) q) = Return tt
        /\ waveband (snd (waveband_set (PyStr k) q)) = Some v)
  /\ (forall q, waveband (snd (waveband_set (PyStr "ir") q)) = Some "Infrared").
Proof.
  split; [exact canonical_init|].
  split; [exact canonical_step|].
  split; [exact waveband_synonym_stored|].
  intros q. now apply (waveband_synonym_stored "ir" "Infrared" q).
Qed.

Lemma tags_canonical_witness :
  let q := RegistryQuery_init (PyBool true) None in
  canonical (snd (run_op (SetWaveband (PyStr "radio")) q)) = true
  /\ waveband (snd (run_op (SetWaveband (PyStr "radio")) q)) = Some "Radio"
  /\ waveband (snd (waveband_set (PyStr "euv") q)) = Some "EUV".
Proof.
  cbv zeta. split; [|split].
  - apply (proj1 (proj2 tags_canonical)). reflexivity.
  - reflexivity.
  - apply (proj1 (proj2 (proj2 tags_canonical)) "euv" "EUV"). reflexivity.
Defined.

(** ** The rendered URL *)

(** [getQueryURL] puts the head, the capability and the predicate one
    after the other. *)
Lemma getQueryURL_parts (enc : string -> string) (q : RegistryQuery) :
  getQueryURL enc q =
  obind (url_capability q) (fun c =>
    Return (url_head enc q ++ "&capability=" ++ c ++ "&predicate=" ++ url_predicate q)).
Proof.
  unfold getQueryURL, url_capability, url_predicate.
  fold (url_head enc q).
  destruct (servicetype q) as [stype|]; simpl given.
  - destruct (negb (stype =? "")).
    + destruct (_toCapConst stype) as [c|e]; simpl; [|reflexivity].
      destruct (negb (Nat.eqb (List.length (url_preds q)) 0));
        now rewrite !app_assoc_str.
    + simpl.
      destruct (negb (Nat.eqb (List.length (url_preds q)) 0));
        now rewrite !app_assoc_str.
  - simpl.
    destruct (negb (Nat.eqb (List.length (url_preds q)) 0));
      now rewrite !app_assoc_str.
Qed.

(** Every URL a query renders begins with the base URL of the query, the
    service name and the result-format argument. *)
Lemma getQueryURL_prefix (enc : string -> string) (q : RegistryQuery) (url : string) :
  getQueryURL enc q = Return url ->
  prefix (_baseurl q ++ SERVICE_NAME ++ "?" ++ RESULTSET_TYPE_ARG) url = true.
Proof.
  rewrite getQueryURL_parts.
  destruct (url_capability q) as [c|e]; simpl; [|discriminate].
  intros H; injection H as <-.
  apply prefix_app_trans. unfold url_head.
  destruct (Nat.ltb 0 (List.length (paramnames q))).
  - rewrite <- !app_assoc_str.
    rewrite !app_assoc_str.
    replace (_baseurl q ++ SERVICE_NAME ++ "?" ++ RESULTSET_TYPE_ARG ++ "&" ++
             join "&" (map (fun pv => fst pv ++ "=" ++ enc (snd pv)) (_param q)))
      with ((_baseurl q ++ SERVICE_NAME ++ "?" ++ RESULTSET_TYPE_ARG) ++ "&" ++
             join "&" (map (fun pv => fst pv ++ "=" ++ enc (snd pv)) (_param q)))
      by now rewrite !app_assoc_str.
    apply prefix_app.
  - apply prefix_refl.
Qed.

(** A query whose service type is a key of the capability table renders
    the capability of that key. *)
Lemma capability_rendered (enc : string -> string) (q : RegistryQuery) (t : string) :
  servicetype q = Some t -> mem t (keys ALLOWED_CAPS) = true ->
  exists cap,
    lookup t ALLOWED_CAPS = Some cap
    /\ In cap CAPABILITY_NAMES
    /\ getQueryURL enc q =
         Return (url_head enc q ++ "&capability=" ++ cap
                   ++ "&predicate=" ++ url_predicate q)
    /\ contains (url_head enc q ++ "&capability=" ++ cap
                   ++ "&predicate=" ++ url_predicate q)
                ("&capability=" ++ cap).
Proof.
  intros Ht Hk.
  destruct (lookup_key _ _ Hk) as [cap [Hc Hin]].
  exists cap. split; [exact Hc|]. split; [now apply ALLOWED_CAPS_values|].
  assert (NE : (t =? "") = false).
  { destruct t; [discriminate Hk | reflexivity]. }
  split.
  - rewrite getQueryURL_parts. unfold url_capability, _toCapConst.
    rewrite Ht. cbn [given]. rewrite NE, Hc. reflexivity.
  - exists (url_head enc q), ("&predicate=" ++ url_predicate q).
    now rewrite !app_assoc_str.
Qed.

(** C5: once the service type of a query is set, the stored type is a key
    of the capability table, and the URL of a query with such a type has
    [&capability=] followed by the capability that the table gives for it,
    between the head and the predicate; for "scs" that is
    [&capability=ConeSearch]. *)
Theorem servicetype_renders_capability (enc : string -> string) :
  (forall val q q',
      servicetype_set val q = (Return tt, q') ->
      servicetype q' = Some (uncapitalize val)
      /\ exists cap,
          lookup (uncapitalize val) ALLOWED_CAPS = Some cap
          /\ In cap CAPABILITY_NAMES
          /\ getQueryURL enc q' =
               Return (url_head enc q' ++ "&capability=" ++ cap
                         ++ "&predicate=" ++ url_predicate q')
          /\ contains (url_head enc q' ++ "&capability=" ++ cap
                         ++ "&predicate=" ++ url_predicate q')
                      ("&capability=" ++ cap))
  /\ (forall q,
        fst (servicetype_set "scs" q) = Return tt
        /\ exists url, getQueryURL enc (snd (servicetype_set "scs" q)) = Return url
                       /\ contains url "&capability=ConeSearch").
Proof.
  assert (G : forall val q q',
      servicetype_set val q = (Return tt, q') ->
      servicetype q' = Some (uncapitalize val)
      /\ mem (uncapitalize val) (keys ALLOWED_CAPS) = true).
  { intros val q q' H.
    destruct (servicetype_set_cases val q) as [[_ E]|[[_ E]|[[_ [_ E]]|[V E]]]];
      rewrite E in H; try discriminate.
    injection H as <-. split; [reflexivity|].
    unfold valid_servicetype in V. now apply andb_true_iff in V as [_ V]. }
  split.
  - intros val q q' H. destruct (G val q q' H) as [Hs Hk].
    split; [exact Hs|]. now apply capability_rendered.
  - intros q. split; [reflexivity|].
    destruct (G "scs" q (snd (servicetype_set "scs" q)) eq_refl) as [Hs Hk].
    destruct (capability_rendered enc _ _ Hs Hk) as [cap [Hc [_ [U C]]]].
    injection Hc as <-.
    eexists. split; [exact U | exact C].
Qed.

Lemma servicetype_renders_capability_witness :
  let q := set_svctype (Some "sia") (RegistryQuery_init (PyBool true) None) in
  servicetype q = Some (uncapitalize "Sia")
  /\ exists cap,
      lookup (uncapitalize "Sia") ALLOWED_CAPS = Some cap
      /\ In cap CAPABILITY_NAMES
      /\ getQueryURL (fun s => s) q =
           Return (url_head (fun s => s) q ++ "&capability=" ++ cap
                     ++ "&predicate=" ++ url_predicate q)
      /\ contains (url_head (fun s => s) q ++ "&capability=" ++ cap
                     ++ "&predicate=" ++ url_predicate q)
                  ("&capability=" ++ cap).
Proof.
  cbv zeta.
  apply (proj1 (servicetype_renders_capability (fun s => s))
               "Sia" (RegistryQuery_init (PyBool true) None)).
  reflexivity.
Defined.

(** C8: a query with no keywords, no predicates, no service type and no
    waveband renders a URL that ends with [&predicate=1] and whose
    capability parameter has no value: [&capability=] is followed at once
    by [&predicate=1]; for a fresh query that is the whole URL after the
    head. *)
Theorem empty_query_url (enc : string -> string) (q : RegistryQuery) :
  keywords q = [] -> predicates q = [] ->
  servicetype q = None -> waveband q = None ->
  exists url,
    getQueryURL enc q = Return url
    /\ url = url_head enc q ++ "&capability=" ++ "&predicate=1"
    /\ endswith url "&predicate=1" = true
    /\ contains url "&capability=&predicate=1".
Proof.
  unfold keywords, predicates. intros Hk Hp Hs _.
  assert (U : getQueryURL enc q =
              Return (url_head enc q ++ "&capability=" ++ "&predicate=1")).
  { rewrite getQueryURL_parts.
    unfold url_capability, url_predicate, url_preds, keywords.
    now rewrite Hs, Hk, Hp. }
  eexists. split; [exact U|]. split; [reflexivity|]. split.
  - rewrite <- app_assoc_str. apply endswith_app.
  - exists (url_head enc q), "". now rewrite app_nil_r_str.
Qed.

Lemma empty_query_url_witness :
  exists url,
    getQueryURL (fun s => s) (RegistryQuery_init (PyBool true) None) = Return url
    /\ url = url_head (fun s => s) (RegistryQuery_init (PyBool true) None)
               ++ "&capability=" ++ "&predicate=1"
    /\ endswith url "&predicate=1" = true
    /\ contains url "&capability=&predicate=1".
Proof.
  apply (empty_query_url (fun s => s) (RegistryQuery_init (PyBool true) None));
    reflexivity.
Defined.

(** The URL of a fresh query, whatever its keyword mode. *)
Lemma fresh_query_url (enc : string -> string) (orKeywords : pyval) :
  getQueryURL enc (RegistryQuery_init orKeywords None) =
  Return "http://vao.stsci.edu/directory/NVORegInt.asmx/VOTCapBandPredOpt?VOTStyleOption=2&capability=&predicate=1".
Proof. reflexivity. Qed.

(** ** The service *)

(** The base URL of a service ends with a slash. *)
Lemma service_baseurl_slash (baseurl : option string) :
  endswith (service_baseurl (RegistryService_init baseurl)) "/" = true.
Proof.
  unfold RegistryService_init. simpl.
  destruct (endswith (or_default baseurl STSCI_REGISTRY_BASEURL) "/") eqn:E; simpl.
  - exact E.
  - apply endswith_app.
Qed.

Lemma bind_baseurl (m k : method unit) :
  (forall q, _baseurl (snd (m q)) = _baseurl q) ->
  (forall q, _baseurl (snd (k q)) = _baseurl q) ->
  forall q, _baseurl (snd ((m ;;; k) q)) = _baseurl q.
Proof.
  intros Hm Hk q. unfold bind. specialize (Hm q).
  destruct (m q) as [[[]|e] q1]; simpl in *; [|exact Hm].
  now rewrite Hk.
Qed.

Lemma waveband_set_baseurl (band : pyval) (q : RegistryQuery) :
  _baseurl (snd (waveband_set band q)) = _baseurl q.
Proof.
  destruct band as [|b|s]; try reflexivity.
  destruct (waveband_set_cases s q) as [[_ [msg E]]|[_ E]]; now rewrite E.
Qed.

Lemma servicetype_set_baseurl (val : string) (q : RegistryQuery) :
  _baseurl (snd (servicetype_set val q)) = _baseurl q.
Proof.
  destruct (servicetype_set_cases val q) as [[_ E]|[[_ E]|[[_ [_ E]]|[_ E]]]];
    now rewrite E.
Qed.

(** Whatever the service, a query made by [createQuery] has the public
    registry as its base URL: the URL of the service went to [orKeywords]. *)
Lemma createQuery_baseurl (enc : string -> string) (self : RegistryService)
      (keywords : option kwarg) (servicetype : option string) (waveband : pyval)
      (sqlpred : option string) (q : RegistryQuery) :
  createQuery self keywords servicetype waveband sqlpred = Return q ->
  _baseurl q = STSCI_REGISTRY_BASEURL
  /\ forall url, getQueryURL enc q = Return url ->
       prefix (STSCI_REGISTRY_BASEURL ++ SERVICE_NAME ++ "?" ++ RESULTSET_TYPE_ARG) url
       = true.
Proof.
  unfold createQuery.
  match goal with
  | |- match ?b ?s with _ => _ end = _ -> _ =>
      assert (F : forall q0, _baseurl (snd (b q0)) = _baseurl q0); [|
      specialize (F s); destruct (b s) as [[[]|e] q1]; simpl in F;
      [|discriminate] ]
  end.
  { repeat apply bind_baseurl; intros q0.
    - destruct sqlpred as [p|]; [destruct (given (Some p))|]; reflexivity.
    - destruct (truthy waveband); [apply waveband_set_baseurl | reflexivity].
    - destruct servicetype as [t|]; [destruct (given (Some t))|];
        try reflexivity. apply servicetype_set_baseurl.
    - destruct keywords as [k|]; [destruct (given_kw (Some k))|]; reflexivity. }
  intros H; injection H as <-.
  assert (B : _baseurl q1 = STSCI_REGISTRY_BASEURL) by exact F.
  split; [exact B|].
  intros url Hu. apply getQueryURL_prefix in Hu. now rewrite B in Hu.
Qed.

(** C2 at its failing input: a service made for
    [http://example.org/registry] has the slash-terminated base URL
    [http://example.org/registry/], yet the query that its [createQuery]
    returns renders a URL of the public registry, which does not begin
    with the base URL of the service. *)
Theorem createQuery_url_ignores_service_baseurl (enc : string -> string) :
  let self := RegistryService_init (Some "http://example.org/registry") in
  service_baseurl self = "http://example.org/registry/"
  /\ obind (createQuery self None None PyNone None) (getQueryURL enc) =
     Return "http://vao.stsci.edu/directory/NVORegInt.asmx/VOTCapBandPredOpt?VOTStyleOption=2&capability=&predicate=1"
  /\ prefix (service_baseurl self ++ SERVICE_NAME ++ "?" ++ RESULTSET_TYPE_ARG)
            "http://vao.stsci.edu/directory/NVORegInt.asmx/VOTCapBandPredOpt?VOTStyleOption=2&capability=&predicate=1"
     = false.
Proof. cbv zeta. repeat split. Qed.

(** With the default base URL the service and the query agree. *)
Lemma createQuery_default_service (enc : string -> string) :
  let self := RegistryService_init None in
  forall keywords servicetype waveband sqlpred q url,
    createQuery self keywords servicetype waveband sqlpred = Return q ->
    getQueryURL enc q = Return url ->
    prefix (service_baseurl self ++ SERVICE_NAME ++ "?" ++ RESULTSET_TYPE_ARG) url
    = true.
Proof.
  cbv zeta. intros kw st wb sp q url Hq Hu.
  destruct (createQuery_baseurl enc _ _ _ _ _ _ Hq) as [_ P].
  exact (P url Hu).
Qed.

(** C1 at its failing inputs, which are all of them: [resolve] looks up
    [addPredicate] on the query, a name that neither the class (which has
    [addpredicate]) nor its base binds, and stops with an [AttributeError]
    before a predicate is added or a query is executed. *)
Theorem resolve_attribute_error (enc : string -> string)
        (fetch : RegistryQuery -> outcome votable)
        (self : RegistryService) (ivoid : string) :
  mem "addPredicate" (RegistryQuery_dir ++ DalQuery_dir)%list = false
  /\ mem "addpredicate" RegistryQuery_dir = true
  /\ (exists srch, createQuery self None None PyNone None = Return srch
                   /\ predicates srch = [])
  /\ resolve enc fetch self ivoid = Raise (AttributeError "addPredicate").
Proof.
  split; [reflexivity|]. split; [reflexivity|]. split.
  - eexists. split; reflexivity.
  - unfold resolve. reflexivity.
Qed.

(** The lower-case name that [createQuery] uses is found and adds the
    predicate. *)
Lemma addpredicate_found (pred : string) (q : RegistryQuery) :
  obind (RegistryQuery_getattr "addpredicate") (fun f => Return (f pred q))
  = Return (Return tt, set_preds (_preds q ++ [pred])%list q).
Proof. reflexivity. Qed.

(** ** The keyword predicate *)

Lemma join_cons2 (sep a b : string) (l : list string) :
  join sep (a :: b :: l) = a ++ sep ++ join sep (b :: l).
Proof. reflexivity. Qed.

(** Joining with [") op ("] inside one pair of brackets is joining the
    bracketed groups with [op]. *)
Lemma join_groups (op g : string) (gs : list string) :
  "(" ++ join (")" ++ op ++ "(") (g :: gs) ++ ")" = join op (map paren (g :: gs)).
Proof.
  revert g; induction gs as [|g' gs IH]; intros g.
  - reflexivity.
  - change (map paren (g :: g' :: gs)) with (paren g :: paren g' :: map paren gs).
    rewrite !join_cons2.
    change (paren g' :: map paren gs) with (map paren (g' :: gs)).
    rewrite <- IH. unfold paren.
    rewrite !app_assoc_str. reflexivity.
Qed.

(** C6: for a non-empty keyword list, [keywords_to_predicate] gives one
    bracketed group per keyword, the group being the tests
    [col LIKE '%kw%'] over the eight text columns joined by OR, and joins
    the groups with OR when [ored] is true and with AND when it is false;
    the keywords blue and compact of a query in OR mode reach the URL
    encoder as [((Title LIKE '%blue%' OR ...) OR (Title LIKE '%compact%'
    OR ...))], and in AND mode with AND between the two groups. *)
Theorem keywords_to_predicate_groups :
  (forall (kw : string) (kws : list string) (ored : pyval),
      keywords_to_predicate (kw :: kws) ored =
      join (if truthy ored then " OR " else " AND ")
           (map (fun k =>
                   "(" ++ join " OR "
                            (map (fun col => col ++ " LIKE '%" ++ k ++ "%'") textcols)
                       ++ ")")
                (kw :: kws)))
  /\ List.length textcols = 8
  /\ (let q := snd (addkeywords (KwList ["blue"; "compact"])
                                (RegistryQuery_init (PyBool true) None)) in
      keywords_to_predicate (keywords q) (will_or_keywords q) =
        "(Title LIKE '%blue%' OR ShortName LIKE '%blue%' OR Identifier LIKE '%blue%' OR [content/subject] LIKE '%blue%' OR [curation/publisher] LIKE '%blue%' OR [content/description] LIKE '%blue%' OR [@xsi_type] LIKE '%blue%' OR [capability/@xsi_type] LIKE '%blue%') OR (Title LIKE '%compact%' OR ShortName LIKE '%compact%' OR Identifier LIKE '%compact%' OR [content/subject] LIKE '%compact%' OR [curation/publisher] LIKE '%compact%' OR [content/description] LIKE '%compact%' OR [@xsi_type] LIKE '%compact%' OR [capability/@xsi_type] LIKE '%compact%')"
      /\ predicate_expr (url_preds q) =
        "((Title LIKE '%blue%' OR ShortName LIKE '%blue%' OR Identifier LIKE '%blue%' OR [content/subject] LIKE '%blue%' OR [curation/publisher] LIKE '%blue%' OR [content/description] LIKE '%blue%' OR [@xsi_type] LIKE '%blue%' OR [capability/@xsi_type] LIKE '%blue%') OR (Title LIKE '%compact%' OR ShortName LIKE '%compact%' OR Identifier LIKE '%compact%' OR [content/subject] LIKE '%compact%' OR [curation/publisher] LIKE '%compact%' OR [content/description] LIKE '%compact%' OR [@xsi_type] LIKE '%compact%' OR [capability/@xsi_type] LIKE '%compact%'))"
      /\ predicate_expr (url_preds (snd (or_keywords (PyBool false) q))) =
        "((Title LIKE '%blue%' OR ShortName LIKE '%blue%' OR Identifier LIKE '%blue%' OR [content/subject] LIKE '%blue%' OR [curation/publisher] LIKE '%blue%' OR [content/description] LIKE '%blue%' OR [@xsi_type] LIKE '%blue%' OR [capability/@xsi_type] LIKE '%blue%') AND (Title LIKE '%compact%' OR ShortName LIKE '%compact%' OR Identifier LIKE '%compact%' OR [content/subject] LIKE '%compact%' OR [curation/publisher] LIKE '%compact%' OR [content/description] LIKE '%compact%' OR [@xsi_type] LIKE '%compact%' OR [capability/@xsi_type] LIKE '%compact%'))").
Proof.
  split; [|split; [reflexivity | cbv zeta; repeat split]].
  intros kw kws ored. unfold keywords_to_predicate, conjunction.
  change (map keyconst (kw :: kws)) with (keyconst kw :: map keyconst kws).
  destruct (truthy ored).
  - change ") OR (" with (")" ++ " OR " ++ "(").
    rewrite join_groups.
    change (keyconst kw :: map keyconst kws) with (map keyconst (kw :: kws)).
    rewrite map_map. reflexivity.
  - change ") AND (" with (")" ++ " AND " ++ "(").
    rewrite join_groups.
    change (keyconst kw :: map keyconst kws) with (map keyconst (kw :: kws)).
    rewrite map_map. reflexivity.
Qed.

(** ** Decoding a multi-valued cell *)

(** Splitting loses nothing: joining the fields with the separator gives
    the string back. *)
Lemma split_nonempty (sep : ascii) (s : string) : split sep s <> [].
Proof.
  induction s as [|c s IH]; simpl; [discriminate|].
  destruct (Ascii.eqb c sep); [discriminate|].
  destruct (split sep s); [now elim IH | discriminate].
Qed.

Lemma join_cons_nonempty (sep a : string) (l : list string) :
  l <> [] -> join sep (a :: l) = a ++ sep ++ join sep l.
Proof. destruct l; [intros H; now elim H | reflexivity]. Qed.

Lemma join_cons_head (sep : string) (c : ascii) (h : string) (t : list string) :
  join sep (String c h :: t) = String c (join sep (h :: t)).
Proof. destruct t; reflexivity. Qed.

Lemma join_split (sep : ascii) (s : string) :
  join (String sep "") (split sep s) = s.
Proof.
  induction s as [|c s IH]; simpl; [reflexivity|].
  destruct (Ascii.eqb c sep) eqn:E.
  - apply Ascii.eqb_eq in E; subst c.
    rewrite join_cons_nonempty by apply split_nonempty.
    rewrite IH. reflexivity.
  - generalize (split_nonempty sep s). revert IH.
    destruct (split sep s) as [|h t]; intros IH H; [now elim H|].
    rewrite join_cons_head. now rewrite IH.
Qed.

Lemma last_char_none (s : string) : last_char s = None <-> s = "".
Proof.
  split; [|now intros ->].
  induction s as [|c s IH]; [reflexivity|].
  simpl. destruct s; [discriminate|]. intros H. now apply IH in H.
Qed.

(** A column outside the multi-valued set gives the raw cell. *)
Lemma getvalue_raw (self : RegistryResults) (name : string) (index : Z) :
  mem name _strarraycols = false ->
  getvalue self name index =
  obind (DalResults_getvalue self name index) (fun cell => Return (VStr cell)).
Proof.
  intros H. unfold getvalue.
  destruct (DalResults_getvalue self name index); cbn [obind]; [|reflexivity].
  now rewrite H.
Qed.

(** A multi-valued column is decoded unless the cell is empty or the
    sentinel alone; in these two cases [getvalue] raises [IndexError]. *)
Lemma getvalue_multi (self : RegistryResults) (name : string) (index : Z)
      (cell : string) :
  mem name _strarraycols = true ->
  DalResults_getvalue self name index = Return cell ->
  ((cell = "" \/ cell = "#") /\ getvalue self name index = Raise IndexError)
  \/ (cell <> "" /\ cell <> "#" /\
      exists a b, strip_first cell = Some a /\ strip_last a = Some b
                  /\ getvalue self name index = Return (VTuple (split "#" b))).
Proof.
  intros Hn Hc. unfold getvalue. rewrite Hc. cbn [obind]. rewrite Hn. simpl negb.
  cbv iota.
  destruct cell as [|c rest]; [left; split; [now left | reflexivity]|].
  simpl strip_first. destruct (Ascii.eqb c "#") eqn:E.
  - apply Ascii.eqb_eq in E; subst c.
    destruct rest as [|d rest]; [left; split; [now right | reflexivity]|].
    right. split; [discriminate|]. split; [discriminate|].
    destruct (last_char (String d rest)) as [l|] eqn:L.
    + eexists _, _. split; [reflexivity|].
      unfold strip_last. rewrite L. split; reflexivity.
    + apply last_char_none in L. discriminate L.
  - right. split; [discriminate|]. split.
    { intros H. injection H as -> _. discriminate E. }
    destruct (last_char (String c rest)) as [l|] eqn:L.
    + eexists _, _. split; [reflexivity|].
      unfold strip_last. rewrite L. split; reflexivity.
    + apply last_char_none in L. discriminate L.
Qed.

(** The cell of the spec's example. *)
Lemma getvalue_example (url : string) :
  let self := mkRegistryResults
                [[("title", "#1"); ("waveband", "#Optical#Infrared#")]] url in
  getvalue self "waveband" 0 = Return (VTuple ["Optical"; "Infrared"])
  /\ getvalue self "title" 0 = Return (VStr "#1").
Proof. now split. Qed.

(** C7 at its failing inputs: row 0 is a valid row and [waveband] a column
    of the table, so the generic accessor returns the cell; when the cell
    is empty, or is the sentinel alone, there is nothing left to strip or
    to split and [getvalue] raises [IndexError] instead of returning a
    sequence. *)
Theorem getvalue_degenerate_cell (url : string) :
  let empty := mkRegistryResults [[("waveband", "")]] url in
  let sentinel := mkRegistryResults [[("waveband", "#")]] url in
  DalResults_getvalue empty "waveband" 0 = Return ""
  /\ getvalue empty "waveband" 0 = Raise IndexError
  /\ DalResults_getvalue sentinel "waveband" 0 = Return "#"
  /\ getvalue sentinel "waveband" 0 = Raise IndexError.
Proof. cbv zeta. repeat split. Qed.

(** C10: on a column of the multi-valued set, an empty cell makes
    [getvalue] raise [IndexError]; no sequence is returned. *)
Theorem getvalue_empty_cell_raises (self : RegistryResults) (name : string)
        (index : Z) :
  mem name _strarraycols = true ->
  DalResults_getvalue self name index = Return "" ->
  getvalue self name index = Raise IndexError.
Proof.
  intros Hn Hc. unfold getvalue. rewrite Hc. cbn [obind]. now rewrite Hn.
Qed.

Lemma getvalue_empty_cell_raises_witness :
  getvalue (mkRegistryResults [[("title", "M31"); ("subject", "")]] "") "subject" 0
  = Raise IndexError.
Proof.
  apply getvalue_empty_cell_raises; reflexivity.
Defined.

(** * Further properties of the module *)

(** ** RegistryService.__init__ *)

Lemma endswith_nonempty (s suf : string) :
  endswith s suf = true -> suf <> "" -> s <> "".
Proof.
  intros E Hs ->. unfold endswith in E.
  destruct suf; [now elim Hs | discriminate E].
Qed.

(** The constructor of the service normalises the base URL: whatever is
    given, the stored URL ends with a slash and is not empty; nothing or the
    empty string gives the public registry; a URL that already ends with a
    slash is stored as it is, any other gets one slash appended; and
    building a service from the stored URL gives the same service. *)
Theorem RegistryService_init_normalises (baseurl : option string) :
  endswith (service_baseurl (RegistryService_init baseurl)) "/" = true
  /\ service_baseurl (RegistryService_init baseurl) <> ""
  /\ RegistryService_init (Some (service_baseurl (RegistryService_init baseurl)))
     = RegistryService_init baseurl
  /\ (baseurl = None \/ baseurl = Some "" ->
      service_baseurl (RegistryService_init baseurl) = STSCI_REGISTRY_BASEURL)
  /\ (forall s, baseurl = Some s -> s <> "" ->
        service_baseurl (RegistryService_init baseurl)
        = if endswith s "/" then s else s ++ "/").
Proof.
  assert (E := service_baseurl_slash baseurl).
  assert (N : service_baseurl (RegistryService_init baseurl) <> "").
  { apply (endswith_nonempty _ "/" E). discriminate. }
  split; [exact E|]. split; [exact N|]. split; [|split].
  - transitivity (mkRegistryService (service_baseurl (RegistryService_init baseurl)));
      [|reflexivity].
    revert E N. generalize (service_baseurl (RegistryService_init baseurl)).
    intros b E N. unfold RegistryService_init, or_default.
    apply String.eqb_neq in N. rewrite N, E. reflexivity.
  - intros [-> | ->]; reflexivity.
  - intros s -> Hs. unfold RegistryService_init, or_default. cbn [service_baseurl].
    apply String.eqb_neq in Hs. rewrite Hs.
    now destruct (endswith s "/").
Qed.

Lemma RegistryService_init_normalises_witness :
  service_baseurl (RegistryService_init (Some "")) = STSCI_REGISTRY_BASEURL
  /\ service_baseurl (RegistryService_init (Some "http://example.org/reg"))
     = "http://example.org/reg/".
Proof.
  split.
  - apply (proj1 (proj2 (proj2 (proj2 (RegistryService_init_normalises (Some "")))))).
    now right.
  - apply (proj2 (proj2 (proj2 (proj2
             (RegistryService_init_normalises (Some "http://example.org/reg")))))
             "http://example.org/reg" eq_refl).
    discriminate.
Defined.

(** ** getQueryURL *)

(** Whatever the state of the query, a URL that [getQueryURL] returns
    begins with the base URL of the query, the service name and the
    result-format argument, and ends with the predicate parameter. *)
Theorem getQueryURL_begins_and_ends (enc : string -> string) (q : RegistryQuery)
        (url : string) :
  getQueryURL enc q = Return url ->
  prefix (_baseurl q ++ "VOTCapBandPredOpt?VOTStyleOption=2") url = true
  /\ endswith url ("&predicate=" ++ url_predicate q) = true.
Proof.
  intros H. split.
  - exact (getQueryURL_prefix enc q url H).
  - rewrite getQueryURL_parts in H.
    destruct (url_capability q) as [c|e]; cbn [obind] in H; [|discriminate].
    assert (E : url = (url_head enc q ++ "&capability=" ++ c)
                        ++ "&predicate=" ++ url_predicate q).
    { rewrite app_assoc_str. rewrite (app_assoc_str "&capability=" c). congruence. }
    rewrite E. apply endswith_app.
Qed.

Lemma getQueryURL_begins_and_ends_witness :
  let q := snd (addpredicate "Title='M31'" (RegistryQuery_init (PyBool true) None)) in
  prefix (_baseurl q ++ "VOTCapBandPredOpt?VOTStyleOption=2")
         "http://vao.stsci.edu/directory/NVORegInt.asmx/VOTCapBandPredOpt?VOTStyleOption=2&capability=&predicate=%28Title%3D%27M31%27%29"
  = true
  /\ endswith "http://vao.stsci.edu/directory/NVORegInt.asmx/VOTCapBandPredOpt?VOTStyleOption=2&capability=&predicate=%28Title%3D%27M31%27%29"
              ("&predicate=" ++ url_predicate q) = true.
Proof.
  cbv zeta. apply (getQueryURL_begins_and_ends (fun s => s)). reflexivity.
Defined.

(** On every query reached from a fresh one by the operations of the
    class, [getQueryURL] returns: the capability lookup cannot raise
    [KeyError], and the capability rendered is empty or one of the five
    capability names. *)
Theorem getQueryURL_returns_on_reachable (enc : string -> string) (os : list op)
        (orKeywords : pyval) (baseurl : option string) :
  exists cap,
    (cap = "" \/ In cap CAPABILITY_NAMES)
    /\ getQueryURL enc (run_ops os (RegistryQuery_init orKeywords baseurl)) =
       Return (url_head enc (run_ops os (RegistryQuery_init orKeywords baseurl))
                 ++ "&capability=" ++ cap ++ "&predicate="
                 ++ url_predicate (run_ops os (RegistryQuery_init orKeywords baseurl))).
Proof.
  assert (C := canonical_reachable os orKeywords baseurl).
  revert C. generalize (run_ops os (RegistryQuery_init orKeywords baseurl)).
  intros q C.
  destruct (servicetype q) as [t|] eqn:T.
  - unfold canonical in C. rewrite T in C. apply andb_true_iff in C as [_ K].
    destruct (capability_rendered enc q t T K) as [cap [_ [Hin [U _]]]].
    exists cap. split; [now right | exact U].
  - exists "". split; [now left|].
    rewrite getQueryURL_parts. unfold url_capability. now rewrite T.
Qed.

(** ** Predicates and keywords *)

Lemma set_preds_same (q : RegistryQuery) : set_preds (_preds q) q = q.
Proof. now destruct q. Qed.

(** For a predicate that is not yet in the list, adding it and removing it
    gives back the query as it was, and removing it without having added it
    raises the [ValueError] of [list.remove] and leaves the query as it
    was. *)
Theorem predicates_roundtrip (q : RegistryQuery) (pred : string) :
  mem pred (predicates q) = false ->
  removepredicate pred (snd (addpredicate pred q)) = (Return tt, q)
  /\ removepredicate pred q = (Raise remove_error, q).
Proof.
  unfold predicates. intros H. split.
  - unfold removepredicate, addpredicate. cbn [snd set_preds _preds].
    rewrite (list_remove_appended pred (_preds q) [] H), app_nil_r.
    change (set_preds (_preds q) (set_preds (_preds q ++ [pred])%list q))
      with (set_preds (_preds q) q).
    now rewrite set_preds_same.
  - unfold removepredicate. now rewrite (list_remove_absent pred _ H).
Qed.

Lemma predicates_roundtrip_witness :
  let q := snd (addpredicate "a=1" (RegistryQuery_init (PyBool true) None)) in
  removepredicate "b=2" (snd (addpredicate "b=2" q)) = (Return tt, q)
  /\ removepredicate "b=2" q = (Raise remove_error, q).
Proof.
  cbv zeta. apply predicates_roundtrip. reflexivity.
Defined.

(** What [remove_each] leaves: only the keyword list changes, and when it
    returns, the old list is the removed phrases and the new list,
    rearranged. *)
Lemma remove_each_spec (ks : list string) :
  forall q, snd (remove_each ks q) = set_kw (_kw (snd (remove_each ks q))) q
            /\ (fst (remove_each ks q) = Return tt ->
                Permutation (_kw q) (ks ++ _kw (snd (remove_each ks q)))).
Proof.
  induction ks as [|k ks IH]; intros q; simpl.
  - split; [now rewrite set_kw_same | intros _; apply Permutation_refl].
  - destruct (list_remove k (_kw q)) as [l|] eqn:R.
    + destruct (IH (set_kw l q)) as [F P]. split.
      * rewrite F at 1. apply set_kw_twice.
      * intros H. specialize (P H). cbn [_kw set_kw] in P.
        apply list_remove_perm in R.
        eapply perm_trans; [exact R|]. now apply perm_skip.
    + split; [now rewrite set_kw_same | discriminate].
Qed.

Lemma remove_each_length (ks : list string) :
  forall q, List.length (_kw (snd (remove_each ks q))) <= List.length (_kw q).
Proof.
  induction ks as [|k ks IH]; intros q; simpl; [lia|].
  destruct (list_remove k (_kw q)) as [l|] eqn:R; [|simpl; lia].
  apply list_remove_perm, Permutation_length in R. simpl in R.
  specialize (IH (set_kw l q)). cbn [_kw set_kw] in IH. lia.
Qed.

(** When [removekeywords] returns, nothing but the keyword list has
    changed, and the keywords before the call are exactly the phrases
    removed together with the keywords left: each phrase took one
    occurrence away. *)
Theorem removekeywords_returns (k : kwarg) (q q' : RegistryQuery) :
  removekeywords k q = (Return tt, q') ->
  q' = set_kw (keywords q') q
  /\ Permutation (keywords q) (kwarg_list k ++ keywords q')
  /\ List.length (keywords q) = List.length (kwarg_list k) + List.length (keywords q').
Proof.
  unfold removekeywords, keywords. intros H.
  destruct (remove_each_spec (kwarg_list k) q) as [F P].
  rewrite H in F, P. cbn [fst snd] in F, P. specialize (P eq_refl).
  split; [exact F|]. split; [exact P|].
  apply Permutation_length in P. now rewrite length_app in P.
Qed.

Lemma removekeywords_returns_witness :
  let q := snd (addkeywords (KwList ["a"; "b"; "a"]) (RegistryQuery_init (PyBool true) None)) in
  set_kw ["b"] q = set_kw (keywords (set_kw ["b"] q)) q
  /\ Permutation (keywords q) (kwarg_list (KwList ["a"; "a"]) ++ keywords (set_kw ["b"] q))
  /\ List.length (keywords q)
     = List.length (kwarg_list (KwList ["a"; "a"])) + List.length (keywords (set_kw ["b"] q)).
Proof.
  cbv zeta. apply (removekeywords_returns (KwList ["a"; "a"])). reflexivity.
Defined.

(** [removekeywords] with a list is not all-or-nothing: when the first
    phrase is in the list and a later one is not, the call raises the
    [ValueError] of [list.remove] and the query has already lost
    keywords. *)
Theorem removekeywords_partial (q : RegistryQuery) (k1 : string) (ks : list string)
        (e : exn) :
  mem k1 (keywords q) = true ->
  fst (removekeywords (KwList (k1 :: ks)) q) = Raise e ->
  e = remove_error
  /\ List.length (keywords (snd (removekeywords (KwList (k1 :: ks)) q)))
     < List.length (keywords q).
Proof.
  unfold removekeywords, keywords. cbn [kwarg_list]. intros H1 HR.
  destruct (list_remove_present k1 (_kw q) H1) as [l [R L]].
  simpl in *. rewrite R in *. split.
  - clear L H1 R. revert HR. generalize (set_kw l q). clear q.
    induction ks as [|k ks IH]; intros q HR; simpl in HR; [discriminate|].
    destruct (list_remove k (_kw q)); [now apply IH in HR|].
    simpl in HR. now injection HR as <-.
  - generalize (remove_each_length ks (set_kw l q)). cbn [_kw set_kw]. lia.
Qed.

Lemma removekeywords_partial_witness :
  let q := snd (addkeywords (KwList ["a"; "b"]) (RegistryQuery_init (PyBool true) None)) in
  remove_error = remove_error
  /\ List.length (keywords (snd (removekeywords (KwList ["a"; "c"]) q)))
     < List.length (keywords q).
Proof.
  cbv zeta.
  apply (removekeywords_partial _ "a" ["c"] remove_error); reflexivity.
Defined.

(** Adding a list of phrases none of which is a keyword yet, and removing
    the same list, gives back the query as it was. *)
Theorem keywords_list_roundtrip (q : RegistryQuery) (ks : list string) :
  forallb (fun k => negb (mem k (keywords q))) ks = true ->
  removekeywords (KwList ks) (snd (addkeywords (KwList ks) q)) = (Return tt, q).
Proof.
  unfold keywords, removekeywords, addkeywords. cbn [kwarg_list snd]. intros H.
  rewrite (remove_each_appended ks (_kw q) q H). now rewrite set_kw_same.
Qed.

Lemma keywords_list_roundtrip_witness :
  let q := snd (addkeywords (KwStr "quasar") (RegistryQuery_init (PyBool true) None)) in
  removekeywords (KwList ["blue"; "compact"; "blue"])
                 (snd (addkeywords (KwList ["blue"; "compact"; "blue"]) q))
  = (Return tt, q).
Proof.
  cbv zeta. apply keywords_list_roundtrip. reflexivity.
Defined.

(** With at most one keyword the OR/AND mode does not show: switching it
    leaves the rendered URL as it was. *)
Theorem or_keywords_single_keyword (enc : string -> string) (q : RegistryQuery)
        (ored : pyval) :
  List.length (keywords q) <= 1 ->
  getQueryURL enc (snd (or_keywords ored q)) = getQueryURL enc q.
Proof.
  unfold keywords. intros H.
  rewrite !getQueryURL_parts.
  assert (P : url_preds (snd (or_keywords ored q)) = url_preds q).
  { unfold url_preds, keywords, or_keywords. cbn [snd set_orKw _kw _preds _orKw].
    destruct (_kw q) as [|k [|k' l]]; [reflexivity | reflexivity | simpl in H; lia]. }
  unfold url_predicate. rewrite P. reflexivity.
Qed.

Lemma or_keywords_single_keyword_witness :
  let q := snd (addkeywords (KwStr "quasar") (RegistryQuery_init (PyBool true) None)) in
  getQueryURL (fun s => s) (snd (or_keywords (PyBool false) q))
  = getQueryURL (fun s => s) q.
Proof.
  cbv zeta. apply or_keywords_single_keyword. simpl. lia.
Defined.

(** ** The spellings the two setters accept *)

Lemma upper_inv (c d : ascii) : upper c = d -> c = d \/ c = lower d.
Proof.
  intros <-.
  destruct c as [[] [] [] [] [] [] [] []];
    ((left; reflexivity) || (right; reflexivity)).
Qed.

Lemma capitalize_inv (s : string) (d : ascii) (rest : string) :
  capitalize s = String d rest -> s = String d rest \/ s = String (lower d) rest.
Proof.
  destruct s as [|c r]; simpl; [discriminate|].
  intros H. injection H as U <-.
  destruct (upper_inv c d U) as [-> | ->]; [now left | now right].
Qed.

Lemma uncapitalize_inv (s : string) (d : ascii) (rest : string) :
  uncapitalize s = String d rest -> is_lower d = true ->
  s = String d rest \/ s = String (upper d) rest.
Proof.
  destruct s as [|c r]; [discriminate|].
  destruct c as [[] [] [] [] [] [] [] []]; cbn;
    intros H; injection H as <- <-; intros L;
    try discriminate L; ((left; reflexivity) || (right; reflexivity)).
Qed.

Lemma bool_eq_iff (a b : bool) : (a = true <-> b = true) -> a = b.
Proof.
  destruct a, b; intros [H1 H2]; try reflexivity.
  - symmetry. now apply H1.
  - now apply H2.
Qed.

Lemma lookup_WAVEBAND_SYN_keys (s syn : string) :
  lookup s WAVEBAND_SYN = Some syn -> In s ["ir"; "IR"; "uv"; "euv"].
Proof.
  unfold WAVEBAND_SYN, lookup.
  destruct (s =? "ir") eqn:E1; [apply String.eqb_eq in E1; subst; simpl; tauto|].
  destruct (s =? "IR") eqn:E2; [apply String.eqb_eq in E2; subst; simpl; tauto|].
  destruct (s =? "uv") eqn:E3; [apply String.eqb_eq in E3; subst; simpl; tauto|].
  destruct (s =? "euv") eqn:E4; [apply String.eqb_eq in E4; subst; simpl; tauto|].
  discriminate.
Qed.

(** The inputs the [waveband] setter accepts are the twenty spellings of
    [accepted_wavebands], neither more nor less. *)
Lemma valid_waveband_spellings (s : string) :
  valid_waveband s = mem s accepted_wavebands.
Proof.
  apply bool_eq_iff. split.
  - unfold valid_waveband, canon_band. intros H.
    apply andb_true_iff in H as [_ M].
    destruct (lookup s WAVEBAND_SYN) as [syn|] eqn:K.
    + apply lookup_WAVEBAND_SYN_keys in K. simpl in K.
      repeat (destruct K as [<- | K]; [reflexivity|]). now elim K.
    + apply mem_In in M. simpl in M.
      repeat (destruct M as [M | M];
              [symmetry in M; apply capitalize_inv in M;
               destruct M as [-> | ->]; reflexivity|]).
      now elim M.
  - intros H. apply mem_In in H. simpl in H.
    repeat (destruct H as [<- | H]; [reflexivity|]). now elim H.
Qed.

(** The [waveband] setter, by the spelling of its input: one of the twenty
    accepted spellings is stored as its canonical name, which is an allowed
    waveband; any other string is refused with a [ValueError] and the query
    is as before. *)
Theorem waveband_setter_by_spelling (s : string) (q : RegistryQuery) :
  (mem s accepted_wavebands = true ->
   fst (waveband_set (PyStr s) q) = Return tt
   /\ waveband (snd (waveband_set (PyStr s) q)) = Some (canon_band s)
   /\ mem (canon_band s) ALLOWED_WAVEBANDS = true)
  /\ (mem s accepted_wavebands = false ->
      exists msg, waveband_set (PyStr s) q = (Raise (ValueError msg), q)).
Proof.
  rewrite <- valid_waveband_spellings. split.
  - apply waveband_set_valid.
  - apply waveband_set_invalid.
Qed.

Lemma waveband_setter_by_spelling_witness :
  (fst (waveband_set (PyStr "x-ray") (RegistryQuery_init (PyBool true) None)) = Return tt
   /\ waveband (snd (waveband_set (PyStr "x-ray") (RegistryQuery_init (PyBool true) None)))
      = Some (canon_band "x-ray")
   /\ mem (canon_band "x-ray") ALLOWED_WAVEBANDS = true)
  /\ exists msg, waveband_set (PyStr "RADIO") (RegistryQuery_init (PyBool true) None)
                 = (Raise (ValueError msg), RegistryQuery_init (PyBool true) None).
Proof.
  split.
  - apply (proj1 (waveband_setter_by_spelling "x-ray" _)). reflexivity.
  - apply (proj2 (waveband_setter_by_spelling "RADIO" _)). reflexivity.
Defined.

(** The inputs the [servicetype] setter accepts are the keys of the
    capability table with the first letter in either case. *)
Lemma valid_servicetype_spellings (val : string) :
  valid_servicetype val = mem val accepted_servicetypes.
Proof.
  apply bool_eq_iff. split.
  - unfold valid_servicetype. intros H.
    apply andb_true_iff in H as [_ M].
    apply mem_In in M. simpl in M.
    repeat (destruct M as [M | M];
            [symmetry in M; apply uncapitalize_inv in M; [|reflexivity];
             destruct M as [-> | ->]; reflexivity|]).
    now elim M.
  - intros H. apply mem_In in H. simpl in H.
    repeat (destruct H as [<- | H]; [reflexivity|]). now elim H.
Qed.

(** The [servicetype] setter, by the spelling of its input: a key of the
    capability table, with its first letter in either case, is stored with
    a lower-case first letter and has a capability; any other string,
    unless it is one character long, is refused with a [ValueError] and the
    query is as before. *)
Theorem servicetype_setter_by_spelling (val : string) (q : RegistryQuery) :
  (mem val accepted_servicetypes = true ->
   servicetype_set val q = (Return tt, set_svctype (Some (uncapitalize val)) q)
   /\ exists cap, _toCapConst (uncapitalize val) = Return cap
                  /\ In cap CAPABILITY_NAMES)
  /\ (mem val accepted_servicetypes = false -> String.length val <> 1 ->
      exists msg, servicetype_set val q = (Raise (ValueError msg), q)).
Proof.
  rewrite <- valid_servicetype_spellings. split.
  - intros V.
    destruct (servicetype_set_cases val q) as [[-> E]|[[L E]|[[V' _]|[_ E]]]].
    + discriminate V.
    + destruct val as [|c [|d r]]; discriminate.
    + rewrite V in V'. discriminate.
    + split; [exact E|].
      unfold valid_servicetype in V. apply andb_true_iff in V as [_ K].
      destruct (lookup_key _ _ K) as [cap [Hc Hin]].
      exists cap. unfold _toCapConst. rewrite Hc.
      split; [reflexivity | now apply ALLOWED_CAPS_values].
  - apply servicetype_set_invalid.
Qed.

Lemma servicetype_setter_by_spelling_witness :
  (servicetype_set "Image" (RegistryQuery_init (PyBool true) None)
   = (Return tt, set_svctype (Some (uncapitalize "Image")) (RegistryQuery_init (PyBool true) None))
   /\ exists cap, _toCapConst (uncapitalize "Image") = Return cap
                  /\ In cap CAPABILITY_NAMES)
  /\ exists msg, servicetype_set "ConeSearch" (RegistryQuery_init (PyBool true) None)
                 = (Raise (ValueError msg), RegistryQuery_init (PyBool true) None).
Proof.
  split.
  - apply (proj1 (servicetype_setter_by_spelling "Image" _)). reflexivity.
  - apply (proj2 (servicetype_setter_by_spelling "ConeSearch" _)).
    + reflexivity.
    + discriminate.
Defined.

(** ** The waveband in the URL *)

Lemma contains_app_r (s sub post : string) :
  contains s sub -> contains (s ++ post) sub.
Proof.
  intros [a [b ->]]. exists a, (b ++ post). now rewrite !app_assoc_str.
Qed.

Lemma contains_app_l (pre s sub : string) :
  contains s sub -> contains (pre ++ s) sub.
Proof.
  intros [a [b ->]]. exists (pre ++ a), b. now rewrite !app_assoc_str.
Qed.

(** Each item of a join with [&], led by [&], is in the joined string led
    by [&]. *)
Lemma join_amp_contains (x : string) (l : list string) :
  In x l -> contains ("&" ++ join "&" l) ("&" ++ x).
Proof.
  induction l as [|y l IH]; [intros []|].
  intros [-> | H].
  - destruct l as [|z l].
    + exists "", "". simpl. now rewrite app_nil_r_str.
    + exists "", ("&" ++ join "&" (z :: l)).
      rewrite join_cons2. reflexivity.
  - destruct l as [|z l]; [destruct H|].
    rewrite join_cons2.
    replace ("&" ++ y ++ "&" ++ join "&" (z :: l))
      with (("&" ++ y) ++ ("&" ++ join "&" (z :: l)))
      by now rewrite !app_assoc_str.
    apply contains_app_l, IH, H.
Qed.

Lemma dict_set_In (k v : string) (d : list (string * string)) :
  In (k, v) (dict_set k v d).
Proof.
  induction d as [|[k' v'] d IH]; simpl; [now left|].
  destruct (k =? k'); [now left | now right].
Qed.

(** After the [waveband] setter has accepted a value, every URL the query
    renders carries the parameter [&waveband=] with the canonical name, as
    the parameter encoder of the base class writes it; on a query without
    other parameters it comes right after the result-format argument. *)
Theorem waveband_rendered (enc : string -> string) (s : string) (q : RegistryQuery) :
  valid_waveband s = true ->
  (forall url, getQueryURL enc (snd (waveband_set (PyStr s) q)) = Return url ->
               contains url ("&waveband=" ++ enc (canon_band s)))
  /\ (_param q = [] ->
      url_head enc (snd (waveband_set (PyStr s) q)) =
      _baseurl q ++ "VOTCapBandPredOpt?VOTStyleOption=2" ++ "&waveband="
                 ++ enc (canon_band s)).
Proof.
  intros V.
  destruct (waveband_set_cases s q) as [[V' _]|[_ E]]; [rewrite V in V'; discriminate|].
  rewrite E. cbn [snd]. split.
  - intros url H. rewrite getQueryURL_parts in H.
    destruct (url_capability _) as [c|e]; cbn [obind] in H; [|discriminate].
    assert (U : url = url_head enc (set_param (dict_set "waveband" (canon_band s) (_param q)) q)
                        ++ "&capability=" ++ c ++ "&predicate="
                        ++ url_predicate (set_param (dict_set "waveband" (canon_band s) (_param q)) q))
      by congruence.
    rewrite U. apply contains_app_r.
    unfold url_head, paramnames, keys. cbn [_param set_param _baseurl].
    assert (I := dict_set_In "waveband" (canon_band s) (_param q)).
    destruct (dict_set "waveband" (canon_band s) (_param q)) as [|p d] eqn:D;
      [destruct I|].
    change (Nat.ltb 0 (List.length (map fst (p :: d)))) with true. cbv iota.
    apply contains_app_l.
    apply (join_amp_contains ("waveband=" ++ enc (canon_band s))).
    apply (in_map (fun pv => fst pv ++ "=" ++ enc (snd pv)) _ _ I).
  - intros P. unfold url_head, paramnames, keys. cbn [_param set_param _baseurl].
    rewrite P. cbn. now rewrite !app_assoc_str.
Qed.

Lemma waveband_rendered_witness :
  url_head (fun s => s) (snd (waveband_set (PyStr "ir") (RegistryQuery_init (PyBool true) None))) =
  _baseurl (RegistryQuery_init (PyBool true) None)
    ++ "VOTCapBandPredOpt?VOTStyleOption=2" ++ "&waveband=" ++ canon_band "ir".
Proof.
  apply (proj2 (waveband_rendered (fun s => s) "ir"
                  (RegistryQuery_init (PyBool true) None) eq_refl)).
  reflexivity.
Defined.

(** ** The predicate parameter is URL-safe *)

Lemma string_forallb_app (p : ascii -> bool) (a b : string) :
  string_forallb p (a ++ b) = string_forallb p a && string_forallb p b.
Proof.
  induction a as [|c a IH]; simpl; [reflexivity|].
  now rewrite IH, andb_assoc.
Qed.

Lemma string_forallb_impl (p p' : ascii -> bool) (s : string) :
  (forall c, p c = true -> p' c = true) ->
  string_forallb p s = true -> string_forallb p' s = true.
Proof.
  intros I. induction s as [|c s IH]; simpl; [reflexivity|].
  intros H. apply andb_true_iff in H as [Hc Hs].
  apply andb_true_iff. split; [now apply I | now apply IH].
Qed.

Lemma quote_char_safe (c : ascii) :
  string_forallb url_value_char
    (if Ascii.eqb c " " then "+"
     else if always_safe c then String c EmptyString
     else percent_encode c) = true.
Proof. destruct c as [[] [] [] [] [] [] [] []]; reflexivity. Qed.

Lemma quote_plus_safe (s : string) :
  string_forallb url_value_char (quote_plus s) = true.
Proof.
  induction s as [|c s IH]; [reflexivity|].
  cbn [quote_plus]. rewrite string_forallb_app, quote_char_safe, IH. reflexivity.
Qed.

(** Whatever the predicates and keywords of a query contain, the value of
    the [predicate] parameter in its URL is made of letters, digits, [_],
    [.], [-], [+] and [%] only; so it has no [&], [=], [#], blank or quote
    that could end the parameter or start another. *)
Theorem url_predicate_safe (q : RegistryQuery) :
  string_forallb url_value_char (url_predicate q) = true
  /\ free_of "&" (url_predicate q) = true
  /\ free_of "=" (url_predicate q) = true
  /\ free_of "#" (url_predicate q) = true
  /\ free_of " " (url_predicate q) = true
  /\ free_of "'" (url_predicate q) = true.
Proof.
  assert (S : string_forallb url_value_char (url_predicate q) = true).
  { unfold url_predicate.
    destruct (negb (Nat.eqb (List.length (url_preds q)) 0));
      [apply quote_plus_safe | reflexivity]. }
  split; [exact S|].
  repeat split; unfold free_of;
    (eapply string_forallb_impl; [|exact S]);
    intros c; destruct c as [[] [] [] [] [] [] [] []];
    intros H; try reflexivity; discriminate H.
Qed.

(** ** Decoding: what getvalue returns *)

Lemma split_free (sep : ascii) (s : string) :
  forallb (free_of sep) (split sep s) = true.
Proof.
  induction s as [|c s IH]; [reflexivity|].
  cbn [split]. destruct (Ascii.eqb c sep) eqn:E.
  - cbn [forallb]. now rewrite IH.
  - generalize (split_nonempty sep s). revert IH.
    destruct (split sep s) as [|h t]; intros IH N; [now elim N|].
    cbn [forallb] in *. apply andb_true_iff in IH as [Hh Ht].
    apply andb_true_iff. split; [|exact Ht].
    unfold free_of in *. cbn [string_forallb]. now rewrite E, Hh.
Qed.

Lemma split_one_field (sep : ascii) (a : string) :
  free_of sep a = true -> split sep a = [a].
Proof.
  unfold free_of. induction a as [|c a IH]; [reflexivity|].
  cbn [string_forallb split]. intros H. apply andb_true_iff in H as [Hc Ha].
  apply negb_true_iff in Hc. rewrite Hc, (IH Ha). reflexivity.
Qed.

Lemma split_first_field (sep : ascii) (a b : string) :
  free_of sep a = true -> split sep (a ++ String sep b) = a :: split sep b.
Proof.
  unfold free_of. induction a as [|c a IH]; cbn [string_forallb split append].
  - intros _. now rewrite Ascii.eqb_refl.
  - intros H. apply andb_true_iff in H as [Hc Ha].
    apply negb_true_iff in Hc. rewrite Hc, (IH Ha). reflexivity.
Qed.

(** Splitting undoes joining, for at least one field and fields without
    the separator. *)
Lemma split_join (sep : ascii) (l : list string) :
  l <> [] -> forallb (free_of sep) l = true ->
  split sep (join (String sep "") l) = l.
Proof.
  induction l as [|a l IH]; [intros N; now elim N|].
  intros _ H. cbn [forallb] in H. apply andb_true_iff in H as [Ha Hl].
  destruct l as [|b l].
  - now apply split_one_field.
  - rewrite join_cons2. cbn [append].
    rewrite (split_first_field sep a _ Ha), IH; [reflexivity | discriminate | exact Hl].
Qed.

Lemma last_char_app (a : string) (c : ascii) :
  last_char (a ++ String c "") = Some c.
Proof.
  induction a as [|x a IH]; [reflexivity|].
  cbn [append last_char]. rewrite IH.
  destruct (a ++ String c "") eqn:E; [|reflexivity].
  destruct a; discriminate E.
Qed.

Lemma drop_last_app (a : string) (c : ascii) :
  drop_last (a ++ String c "") = a.
Proof.
  induction a as [|x a IH]; [reflexivity|].
  cbn [append drop_last]. rewrite IH.
  destruct (a ++ String c "") eqn:E; [|reflexivity].
  destruct a; discriminate E.
Qed.

(** Decoding undoes the registry's encoding: a cell that holds the fields
    of a non-empty list, none with a [#] in it, joined by [#] between a
    leading and a trailing [#], is returned as that list. *)
Theorem getvalue_decodes_encoding (self : RegistryResults) (name : string)
        (index : Z) (l : list string) :
  mem name _strarraycols = true ->
  l <> [] -> forallb (free_of "#") l = true ->
  DalResults_getvalue self name index = Return ("#" ++ join "#" l ++ "#") ->
  getvalue self name index = Return (VTuple l).
Proof.
  intros Hn N F Hc. unfold getvalue. rewrite Hc. cbn [obind]. rewrite Hn.
  cbn [negb append strip_first]. change (Ascii.eqb "#" "#") with true. cbv iota.
  unfold strip_last. rewrite last_char_app.
  change (Ascii.eqb "#" "#") with true. cbv iota.
  rewrite drop_last_app, (split_join "#" l N F). reflexivity.
Qed.

Lemma getvalue_decodes_encoding_witness :
  getvalue (mkRegistryResults [[("subject", "#galaxies##agn#")]] "") "subject" 0
  = Return (VTuple ["galaxies"; ""; "agn"]).
Proof.
  apply getvalue_decodes_encoding; [reflexivity | discriminate | reflexivity | reflexivity].
Defined.

(** What [getvalue] returns tells the kind of column: a tuple only for a
    multi-valued column, and then with at least one field and no [#] in any
    field; a string only for another column, and then the cell as the base
    accessor gave it. *)
Theorem getvalue_result_shape (self : RegistryResults) (name : string) (index : Z)
        (v : value) :
  getvalue self name index = Return v ->
  match v with
  | VTuple l => mem name _strarraycols = true /\ l <> []
                /\ forallb (free_of "#") l = true
  | VStr s => mem name _strarraycols = false
              /\ DalResults_getvalue self name index = Return s
  end.
Proof.
  unfold getvalue.
  destruct (DalResults_getvalue self name index) as [cell|e]; cbn [obind];
    [|discriminate].
  destruct (mem name _strarraycols); cbn [negb]; cbv iota.
  - destruct (strip_first cell) as [a|]; [|discriminate].
    destruct (strip_last a) as [b|]; [|discriminate].
    intros H. assert (E : v = VTuple (split "#" b)) by congruence. rewrite E.
    split; [reflexivity|]. split; [apply split_nonempty | apply split_free].
  - intros H. assert (E : v = VStr cell) by congruence. rewrite E. now split.
Qed.

Lemma getvalue_result_shape_witness :
  mem "type" _strarraycols = true /\ ["Catalog"; "Archive"] <> []
  /\ forallb (free_of "#") ["Catalog"; "Archive"] = true.
Proof.
  apply (getvalue_result_shape
           (mkRegistryResults [[("type", "Catalog#Archive")]] "") "type" 0
           (VTuple ["Catalog"; "Archive"])).
  reflexivity.
Defined.

(** On a multi-valued column whose cell the base accessor returns,
    [getvalue] raises exactly when the cell is empty or is the single
    character [#], and what it raises is [IndexError]. *)
Theorem getvalue_raises_iff (self : RegistryResults) (name : string) (index : Z)
        (cell : string) :
  mem name _strarraycols = true ->
  DalResults_getvalue self name index = Return cell ->
  ((exists e, getvalue self name index = Raise e) <-> (cell = "" \/ cell = "#"))
  /\ (forall e, getvalue self name index = Raise e -> e = IndexError).
Proof.
  intros Hn Hc.
  destruct (getvalue_multi self name index cell Hn Hc)
    as [[D R]|[N1 [N2 [a [b [_ [_ R]]]]]]]; rewrite R.
  - split; [split; [now intros _ | now exists IndexError]|].
    intros e H. congruence.
  - split; [split|].
    + intros [e H]. discriminate H.
    + intros [-> | ->]; [now elim N1 | now elim N2].
    + intros e H. discriminate H.
Qed.

Lemma getvalue_raises_iff_witness :
  ((exists e, getvalue (mkRegistryResults [[("subject", "#")]] "") "subject" 0 = Raise e)
   <-> ("#" = "" \/ "#" = "#"))
  /\ (forall e, getvalue (mkRegistryResults [[("subject", "#")]] "") "subject" 0 = Raise e
                -> e = IndexError).
Proof.
  apply getvalue_raises_iff; reflexivity.
Defined.

(** ** createQuery, search and regsearch *)

(** Arguments that are given but false in Python (the empty string, the
    empty list, [False]) are skipped like absent ones: the setters are not
    called, nothing is raised, and the query is a fresh one. *)
Theorem createQuery_skips_false_arguments (self : RegistryService)
        (keywords : option kwarg) (servicetype : option string) (waveband : pyval)
        (sqlpred : option string) :
  given_kw keywords = false -> given servicetype = false ->
  truthy waveband = false -> given sqlpred = false ->
  createQuery self keywords servicetype waveband sqlpred
  = createQuery self None None PyNone None.
Proof.
  intros Hk Hs Hw Hp. unfold createQuery.
  rewrite Hw.
  destruct sqlpred as [p|]; [rewrite Hp|];
    (destruct servicetype as [t|]; [rewrite Hs|]);
    (destruct keywords as [k|]; [rewrite Hk|]); reflexivity.
Qed.

Lemma createQuery_skips_false_arguments_witness :
  createQuery (RegistryService_init None) (Some (KwList [])) (Some "") (PyStr "") (Some "")
  = createQuery (RegistryService_init None) None None PyNone None.
Proof.
  apply createQuery_skips_false_arguments; reflexivity.
Defined.

(** A waveband that the setter refuses makes [createQuery] raise the
    [ValueError], whatever the other arguments, and [search] raise it
    without the table being fetched: the result does not depend on the
    transport. *)
Theorem search_refuses_waveband (enc : string -> string)
        (fetch : RegistryQuery -> outcome votable) (self : RegistryService)
        (keywords : option kwarg) (servicetype : option string) (w : string)
        (sqlpred : option string) :
  w <> "" -> valid_waveband w = false ->
  exists msg,
    createQuery self keywords servicetype (PyStr w) sqlpred = Raise (ValueError msg)
    /\ search enc fetch self keywords servicetype (PyStr w) sqlpred
       = Raise (ValueError msg).
Proof.
  intros N V.
  assert (T : truthy (PyStr w) = true).
  { simpl. apply String.eqb_neq in N. now rewrite N. }
  assert (C : exists msg,
             createQuery self keywords servicetype (PyStr w) sqlpred
             = Raise (ValueError msg)).
  { unfold createQuery. rewrite T. unfold bind at 1.
    destruct sqlpred as [p|]; [destruct (given (Some p))|];
      cbn [addpredicate ret];
      unfold bind at 1;
      match goal with
      | |- context [waveband_set (PyStr w) ?q0] =>
          destruct (waveband_set_invalid w q0 V) as [msg E]; rewrite E
      end; now exists msg. }
  destruct C as [msg C]. exists msg. split; [exact C|].
  unfold search. now rewrite C.
Qed.

Lemma search_refuses_waveband_witness :
  exists msg,
    createQuery (RegistryService_init None) None (Some "scs") (PyStr "visible") None
    = Raise (ValueError msg)
    /\ search (fun s => s) (fun _ => Return []) (RegistryService_init None)
              None (Some "scs") (PyStr "visible") None
       = Raise (ValueError msg).
Proof.
  apply search_refuses_waveband; [discriminate | reflexivity].
Defined.

(** On a query with its tags in the vocabulary [getQueryURL] returns. *)
Lemma canonical_renders (enc : string -> string) (q : RegistryQuery) :
  canonical q = true -> exists url, getQueryURL enc q = Return url.
Proof.
  intros C. destruct (servicetype q) as [t|] eqn:T.
  - unfold canonical in C. rewrite T in C. apply andb_true_iff in C as [_ K].
    destruct (capability_rendered enc q t T K) as [cap [_ [_ [U _]]]].
    eexists; exact U.
  - rewrite getQueryURL_parts. unfold url_capability. rewrite T.
    eexists; reflexivity.
Qed.

Lemma bind_canonical (m k : method unit) :
  (forall q, canonical q = true -> canonical (snd (m q)) = true) ->
  (forall q, canonical q = true -> canonical (snd (k q)) = true) ->
  forall q, canonical q = true -> canonical (snd ((m ;;; k) q)) = true.
Proof.
  intros Hm Hk q Hq. unfold bind. specialize (Hm q Hq).
  destruct (m q) as [[[]|e] q1]; cbn [snd] in *; [now apply Hk | exact Hm].
Qed.

(** A query that [createQuery] returns has its tags in the vocabulary,
    and [getQueryURL] returns on it. *)
Theorem createQuery_renders (enc : string -> string) (self : RegistryService)
        (keywords : option kwarg) (servicetype : option string) (waveband : pyval)
        (sqlpred : option string) (q : RegistryQuery) :
  createQuery self keywords servicetype waveband sqlpred = Return q ->
  canonical q = true /\ exists url, getQueryURL enc q = Return url.
Proof.
  unfold createQuery.
  match goal with
  | |- match ?b ?s with _ => _ end = _ -> _ =>
      assert (F : forall q0, canonical q0 = true -> canonical (snd (b q0)) = true);
        [|specialize (F s eq_refl); destruct (b s) as [[[]|e] q1]; cbn [snd] in F;
          [|discriminate]]
  end.
  { repeat apply bind_canonical; intros q0 H0.
    - destruct sqlpred as [p|]; [destruct (given (Some p))|];
        first [exact H0 | exact (canonical_step (AddPredicate p) q0 H0)].
    - destruct (truthy waveband); [|exact H0].
      exact (canonical_step (SetWaveband waveband) q0 H0).
    - destruct servicetype as [t|]; [destruct (given (Some t))|];
        first [exact H0 | exact (canonical_step (SetServicetype t) q0 H0)].
    - destruct keywords as [k|]; [destruct (given_kw (Some k))|];
        first [exact H0 | exact (canonical_step (AddKeywords k) q0 H0)]. }
  intros H. assert (E : q = q1) by congruence. subst q1.
  split; [exact F|].
  exact (canonical_renders enc q F).
Qed.

Lemma createQuery_renders_witness :
  canonical (snd (servicetype_set "sia"
                    (RegistryQuery_init (PyStr (service_baseurl (RegistryService_init None))) None)))
  = true
  /\ exists url,
      getQueryURL (fun s => s)
        (snd (servicetype_set "sia"
                (RegistryQuery_init (PyStr (service_baseurl (RegistryService_init None))) None)))
      = Return url.
Proof.
  apply (createQuery_renders (fun s => s) (RegistryService_init None)
                             None (Some "sia") PyNone None).
  reflexivity.
Defined.

Lemma valid_waveband_truthy (w : string) :
  valid_waveband w = true -> truthy (PyStr w) = true.
Proof. destruct w; [discriminate | reflexivity]. Qed.

Lemma valid_servicetype_given (t : string) :
  valid_servicetype t = true -> given (Some t) = true.
Proof. destruct t; [discriminate | reflexivity]. Qed.

(** With a predicate, a waveband and a service type that the setters
    accept and a non-empty keyword list, [createQuery] returns a query
    that holds exactly the predicate, the canonical waveband, the
    normalised service type and the keywords in their order. *)
Theorem createQuery_builds (self : RegistryService) (ks : list string)
        (t w p : string) :
  ks <> [] -> valid_servicetype t = true -> valid_waveband w = true -> p <> "" ->
  exists q,
    createQuery self (Some (KwList ks)) (Some t) (PyStr w) (Some p) = Return q
    /\ predicates q = [p]
    /\ waveband q = Some (canon_band w)
    /\ servicetype q = Some (uncapitalize t)
    /\ keywords q = ks.
Proof.
  intros Hk Ht Hw Hp.
  unfold createQuery.
  rewrite (valid_waveband_truthy w Hw), (valid_servicetype_given t Ht).
  assert (Gp : given (Some p) = true).
  { simpl. apply String.eqb_neq in Hp. now rewrite Hp. }
  assert (Gk : given_kw (Some (KwList ks)) = true).
  { destruct ks; [now elim Hk | reflexivity]. }
  rewrite Gp, Gk.
  unfold bind at 1. cbn [addpredicate].
  unfold bind at 1.
  match goal with
  | |- context [waveband_set (PyStr w) ?q0] =>
      destruct (waveband_set_cases w q0) as [[V _]|[_ E]];
        [rewrite Hw in V; discriminate | rewrite E]
  end.
  unfold bind at 1.
  match goal with
  | |- context [servicetype_set t ?q0] =>
      destruct (servicetype_set_cases t q0) as [[-> _]|[[L _]|[[V _]|[_ E']]]];
        [discriminate Ht
        | destruct t as [|c [|d r]]; discriminate
        | rewrite Ht in V; discriminate
        | rewrite E']
  end.
  cbn [addkeywords kwarg_list].
  eexists. split; [reflexivity|].
  repeat split.
Qed.

Lemma createQuery_builds_witness :
  exists q,
    createQuery (RegistryService_init None) (Some (KwList ["quasar"; "agn"]))
                (Some "Image") (PyStr "optical") (Some "Title='M31'") = Return q
    /\ predicates q = ["Title='M31'"]
    /\ waveband q = Some (canon_band "optical")
    /\ servicetype q = Some (uncapitalize "Image")
    /\ keywords q = ["quasar"; "agn"].
Proof.
  apply createQuery_builds; [discriminate | reflexivity | reflexivity | discriminate].
Defined.

(** What [regsearch] returns is the table that the transport gave for the
    query made by the default service, with the URL of that query, which
    is a URL of the public registry; and when the query can be made but the
    transport fails, [search] raises what the transport raised. *)
Theorem regsearch_result (enc : string -> string)
        (fetch : RegistryQuery -> outcome votable)
        (keywords : option kwarg) (servicetype : option string) (waveband : pyval)
        (sqlpred : option string) :
  (forall res,
      regsearch enc fetch keywords servicetype waveband sqlpred = Return res ->
      exists q,
        createQuery (RegistryService_init None) keywords servicetype waveband sqlpred
        = Return q
        /\ fetch q = Return (_tbl res)
        /\ getQueryURL enc q = Return (_url res)
        /\ prefix "http://vao.stsci.edu/directory/NVORegInt.asmx/VOTCapBandPredOpt?VOTStyleOption=2"
                  (_url res) = true)
  /\ (forall self q e,
        createQuery self keywords servicetype waveband sqlpred = Return q ->
        fetch q = Raise e ->
        search enc fetch self keywords servicetype waveband sqlpred = Raise e).
Proof.
  split.
  - intros res. unfold regsearch, search.
    destruct (createQuery (RegistryService_init None) keywords servicetype waveband sqlpred)
      as [q|e] eqn:C; cbn [obind]; [|discriminate].
    unfold execute.
    destruct (fetch q) as [v|e] eqn:Fq; cbn [obind]; [|discriminate].
    destruct (getQueryURL enc q) as [u|e] eqn:U; cbn [obind]; [|discriminate].
    intros H. assert (E : res = mkRegistryResults v u) by congruence. subst res.
    exists q. cbn [_tbl _url].
    split; [reflexivity|]. split; [exact Fq|]. split; [exact U|].
    destruct (createQuery_baseurl enc _ _ _ _ _ _ C) as [_ P].
    exact (P u U).
  - intros self q e C Fq. unfold search, execute. rewrite C. cbn [obind].
    now rewrite Fq.
Qed.

Lemma regsearch_result_witness :
  let fetch := fun _ : RegistryQuery => Return [[("title", "3C 273")]] in
  let res := mkRegistryResults [[("title", "3C 273")]]
    "http://vao.stsci.edu/directory/NVORegInt.asmx/VOTCapBandPredOpt?VOTStyleOption=2&capability=&predicate=%28%28Title+LIKE+%27%25quasar%25%27+OR+ShortName+LIKE+%27%25quasar%25%27+OR+Identifier+LIKE+%27%25quasar%25%27+OR+%5Bcontent%2Fsubject%5D+LIKE+%27%25quasar%25%27+OR+%5Bcuration%2Fpublisher%5D+LIKE+%27%25quasar%25%27+OR+%5Bcontent%2Fdescription%5D+LIKE+%27%25quasar%25%27+OR+%5B%40xsi_type%5D+LIKE+%27%25quasar%25%27+OR+%5Bcapability%2F%40xsi_type%5D+LIKE+%27%25quasar%25%27%29%29" in
  exists q,
    createQuery (RegistryService_init None) (Some (KwStr "quasar")) None PyNone None
    = Return q
    /\ fetch q = Return (_tbl res)
    /\ getQueryURL (fun s => s) q = Return (_url res)
    /\ prefix "http://vao.stsci.edu/directory/NVORegInt.asmx/VOTCapBandPredOpt?VOTStyleOption=2"
              (_url res) = true.
Proof.
  intros fetch res.
  apply (proj1 (regsearch_result (fun s => s) fetch
                  (Some (KwStr "quasar")) None PyNone None) res).
  reflexivity.
Defined.

(** ** Each operation changes one part of the URL *)

Lemma url_head_ext (enc : string -> string) (q q' : RegistryQuery) :
  _baseurl q' = _baseurl q -> _param q' = _param q ->
  url_head enc q' = url_head enc q.
Proof. intros B P. unfold url_head, paramnames. now rewrite B, P. Qed.

Lemma url_capability_ext (q q' : RegistryQuery) :
  _svctype q' = _svctype q -> url_capability q' = url_capability q.
Proof. intros S. unfold url_capability, servicetype. now rewrite S. Qed.

Lemma url_predicate_ext (q q' : RegistryQuery) :
  _kw q' = _kw q -> _preds q' = _preds q -> _orKw q' = _orKw q ->
  url_predicate q' = url_predicate q.
Proof.
  intros K P O. unfold url_predicate, url_preds, keywords. now rewrite K, P, O.
Qed.

(** The three parts of the URL are independent: whether it returns or
    raises, an operation on the service type leaves the head and the
    predicate as they were, an operation on the waveband leaves the
    capability and the predicate, and an operation on keywords, keyword
    mode or predicates leaves the head and the capability. *)
Theorem op_changes_one_part (enc : string -> string) (o : op) (q : RegistryQuery) :
  match o with
  | SetServicetype _ | DelServicetype =>
      url_head enc (snd (run_op o q)) = url_head enc q
      /\ url_predicate (snd (run_op o q)) = url_predicate q
  | SetWaveband _ | DelWaveband =>
      url_capability (snd (run_op o q)) = url_capability q
      /\ url_predicate (snd (run_op o q)) = url_predicate q
  | _ =>
      url_head enc (snd (run_op o q)) = url_head enc q
      /\ url_capability (snd (run_op o q)) = url_capability q
  end.
Proof.
  destruct o as [k|k| |ored|val| |band| |p|p| ]; cbn [run_op].
  - split; [now apply url_head_ext | now apply url_capability_ext].
  - unfold removekeywords.
    destruct (remove_each_spec (kwarg_list k) q) as [F _]. rewrite F.
    split; [now apply url_head_ext | now apply url_capability_ext].
  - split; [now apply url_head_ext | now apply url_capability_ext].
  - split; [now apply url_head_ext | now apply url_capability_ext].
  - destruct (servicetype_set_cases val q) as [[_ E]|[[_ E]|[[_ [_ E]]|[_ E]]]];
      rewrite E; cbn [snd];
      (split; [now apply url_head_ext | now apply url_predicate_ext]).
  - split; [now apply url_head_ext | now apply url_predicate_ext].
  - destruct band as [|b|s].
    + split; [now apply url_capability_ext | now apply url_predicate_ext].
    + now split.
    + destruct (waveband_set_cases s q) as [[_ [msg E]]|[_ E]]; rewrite E; cbn [snd];
        (split; [now apply url_capability_ext | now apply url_predicate_ext]).
  - split; [now apply url_capability_ext | now apply url_predicate_ext].
  - split; [now apply url_head_ext | now apply url_capability_ext].
  - unfold removepredicate. destruct (list_remove p (_preds q)); cbn [snd];
      (split; [now apply url_head_ext | now apply url_capability_ext]).
  - split; [now apply url_head_ext | now apply url_capability_ext].
Qed.

(** ** When the predicate is the tautology *)

Lemma quote_plus_paren_first (p : string) (ps : list string) :
  exists rest, quote_plus (predicate_expr (p :: ps)) = String "%" rest.
Proof.
  unfold predicate_expr. cbn [map].
  destruct ps as [|p' ps].
  - cbn [join String.concat]. unfold paren. cbn [append quote_plus].
    eexists. reflexivity.
  - change (paren p :: map paren (p' :: ps)) with (paren p :: paren p' :: map paren ps).
    rewrite join_cons2. unfold paren at 1. cbn [append quote_plus].
    eexists. reflexivity.
Qed.

(** [getQueryURL] renders [predicate=1], which matches every record,
    exactly when the query has neither keywords nor predicates; with any
    constraint the value begins with an escaped bracket. *)
Theorem url_predicate_tautology_iff (q : RegistryQuery) :
  (url_predicate q = "1" <-> keywords q = [] /\ predicates q = [])
  /\ (url_predicate q = "1" \/ exists rest, url_predicate q = "%28" ++ rest).
Proof.
  unfold url_predicate, url_preds, keywords, predicates.
  destruct (_kw q) as [|k ks]; cbn [List.length Nat.eqb negb].
  - destruct (_preds q) as [|p ps]; cbn [List.length Nat.eqb negb].
    + split; [now split | now left].
    + split.
      * split; [|intros [_ H]; discriminate H].
        destruct (quote_plus_paren_first p ps) as [rest R]. rewrite R. discriminate.
      * right. unfold predicate_expr. cbn [map].
        destruct ps as [|p' ps].
        -- cbn [join String.concat]. unfold paren. cbn [append quote_plus].
           eexists. reflexivity.
        -- change (paren p :: map paren (p' :: ps))
             with (paren p :: paren p' :: map paren ps).
           rewrite join_cons2. unfold paren at 1. cbn [append quote_plus].
           eexists. reflexivity.
  - assert (N : exists p ps,
               (_preds q ++ [keywords_to_predicate (k :: ks) (_orKw q)])%list = p :: ps).
    { destruct (_preds q) as [|p ps]; simpl; eauto. }
    destruct N as [p [ps N]]. rewrite N. cbn [List.length Nat.eqb negb].
    split.
    + split; [|intros [H _]; discriminate H].
      destruct (quote_plus_paren_first p ps) as [rest R]. rewrite R. discriminate.
    + right. unfold predicate_expr. cbn [map].
      destruct ps as [|p' ps'].
      * cbn [join String.concat]. unfold paren. cbn [append quote_plus].
        eexists. reflexivity.
      * change (paren p :: map paren (p' :: ps'))
          with (paren p :: paren p' :: map paren ps').
        rewrite join_cons2. unfold paren at 1. cbn [append quote_plus].
        eexists. reflexivity.
Qed.
